(** * openshift.helper: the object helper of openshift-restclient-python

    A shallow embedding of [KubernetesObjectHelper]
    (src/openshift/helper/__init__.py) and the properties its specification
    states about the deep comparator, the sanitizer, the version-token
    stripping and the get/create/patch/delete operations.

    Conventions.  Python 3 semantics are modelled: [dict.items()] returns a
    view, [math.ceil] returns an integer, [timeout / 2] is true division and
    no built-in value lists [__cmp__] in its [dir()].  Integers are
    unbounded ([Z]).  A [timeout] is an integer; the one float of the code,
    [timeout / 2], is given by the integer that is twice its value (see
    [float_half_twice]).
    A Python exception is a value of [exn]; a computation that may raise
    returns a [res]. *)

From Stdlib Require Import List String Ascii ZArith Bool Lia Arith.
From Equations Require Import Equations.
Import ListNotations.
Local Open Scope string_scope.
Local Open Scope Z_scope.

Set Implicit Arguments.
Set Warnings "-register-all".

(** ** Python values *)

(** The values that flow through the helper.  A [dict] is an association
    list in insertion order, its keys are strings and occur once (see
    [nodup_deep]).  A model instance [VObj cls fields] carries its class
    name and, per entry of [swagger_types], the attribute name, the declared
    wire type and the attribute's current value.  [VDatetime iso] is a
    [datetime] object, given by its ISO text. *)
Inductive pyval : Type :=
| VNone
| VBool (b : bool)
| VInt (z : Z)
| VStr (s : string)
| VList (l : list pyval)
| VDict (d : list (string * pyval))
| VObj (cls : string) (fields : list (string * (string * pyval)))
| VDatetime (iso : string).

(** The outcome of a computation that may raise. *)
Inductive res (E A : Type) : Type :=
| Ok (a : A)
| Raise (e : E).
Arguments Ok {E A} a.
Arguments Raise {E A} e.

(** What [json.loads] makes of a response body: the decoded value, a
    [ValueError] for text that is not JSON, a [TypeError] for a body that is
    not text. *)
Inductive loads_outcome : Type :=
| Loaded (v : pyval)
| NotJson
| NotText.

(** The transport's exception ([kubernetes.client.rest.ApiException]): its
    [status] and [reason], what [json.loads(exc.body)] evaluates to, and what
    [str(exc)] renders. *)
Record ApiException : Type := MkApiException {
  status : Z;
  reason : string;
  body_loads : loads_outcome;
  exc_str : string
}.

(** Modelled from the spec: the helper's own error, [ApiRequestError{status,
    message}] of the specification (class [OpenShiftException] of
    openshift/helper/exceptions.py, which is not among the sources).  The
    status is absent when the raiser passes none. *)
Record OpenShiftException : Type := MkOpenShiftException {
  os_message : pyval;
  os_status : option Z
}.

Inductive exn : Type :=
| AttributeError
| TypeError
| KeyError
| ValueError
| NotImplementedError
| ApiExc (e : ApiException)
| OpenShiftExc (e : OpenShiftException)
| OtherError (what : string).

Definition result := res exn.

Declare Scope res_scope.
Delimit Scope res_scope with res.
Notation "x <- c ;; k" :=
  (match c with Ok x => k | Raise e => Raise e end)
  (at level 61, c at next level, right associativity) : res_scope.
Local Open Scope res_scope.

(** ** Built-in operations of the interpreter *)

Fixpoint assoc {A : Type} (k : string) (d : list (string * A)) : option A :=
  match d with
  | [] => None
  | (k', v) :: d' => if String.eqb k k' then Some v else assoc k d'
  end.

Definition is_none (v : pyval) : bool :=
  match v with VNone => true | _ => false end.

(** [bool(v)]: the generated model classes define neither [__bool__] nor
    [__len__], an instance is always true. *)
Definition truthy (v : pyval) : bool :=
  match v with
  | VNone => false
  | VBool b => b
  | VInt z => negb (z =? 0)
  | VStr s => negb (String.eqb s "")
  | VList l => match l with [] => false | _ => true end
  | VDict d => match d with [] => false | _ => true end
  | VObj _ _ => true
  | VDatetime _ => true
  end.

(** [type(v).__name__] *)
Definition type_name (v : pyval) : string :=
  match v with
  | VNone => "NoneType"
  | VBool _ => "bool"
  | VInt _ => "int"
  | VStr _ => "str"
  | VList _ => "list"
  | VDict _ => "dict"
  | VObj cls _ => cls
  | VDatetime _ => "datetime"
  end.

(** Element-wise comparison of two sequences of equal length. *)
Section Forall2b.
Variables (A B : Type) (eqb : A -> B -> bool).
Fixpoint forall2b (la : list A) (lb : list B) {struct la} : bool :=
  match la, lb with
  | [], [] => true
  | x :: la', y :: lb' => eqb x y && forall2b la' lb'
  | _, _ => false
  end.
End Forall2b.

(** [a == b].  [bool] is a subclass of [int]; lists compare element by
    element; dicts compare as finite maps; a model instance compares its
    [__dict__] after an [isinstance] test. *)
Fixpoint py_eq (a b : pyval) {struct a} : bool :=
  match a, b with
  | VNone, VNone => true
  | VBool x, VBool y => Bool.eqb x y
  | VBool x, VInt y => Z.b2z x =? y
  | VInt x, VBool y => x =? Z.b2z y
  | VInt x, VInt y => x =? y
  | VStr x, VStr y => String.eqb x y
  | VList la, VList lb => forall2b py_eq la lb
  | VDict da, VDict db =>
      (List.length da =? List.length db)%nat &&
      forallb (fun kv => match assoc (fst kv) db with
                         | Some v' => py_eq (snd kv) v'
                         | None => false
                         end) da
  | VObj ca fa, VObj cb fb =>
      String.eqb ca cb && (List.length fa =? List.length fb)%nat &&
      forallb (fun ktv => match assoc (fst ktv) fb with
                          | Some tv' => String.eqb (fst (snd ktv)) (fst tv')
                                        && py_eq (snd (snd ktv)) (snd tv')
                          | None => false
                          end) fa
  | VDatetime x, VDatetime y => String.eqb x y
  | _, _ => false
  end.

Definition py_ne (a b : pyval) : bool := negb (py_eq a b).

(** [sub in s] on strings *)
Fixpoint contains_str (s sub : string) {struct s} : bool :=
  if String.prefix sub s then true
  else match s with
       | EmptyString => false
       | String _ s' => contains_str s' sub
       end.

(** [key not in container], for a string key *)
Definition py_not_in (key : string) (container : pyval) : result bool :=
  match container with
  | VDict d => Ok (match assoc key d with Some _ => false | None => true end)
  | VList l => Ok (negb (existsb (py_eq (VStr key)) l))
  | VStr s => Ok (negb (contains_str s key))
  | _ => Raise TypeError
  end.

(** [container[key]], for a string key *)
Definition py_getitem (container : pyval) (key : string) : result pyval :=
  match container with
  | VDict d => match assoc key d with Some v => Ok v | None => Raise KeyError end
  | _ => Raise TypeError
  end.

(** [v.items()]: only a dict has the method; on a model instance the name
    resolves to an attribute, if any, which is not callable. *)
Definition py_items (v : pyval) : result (list (string * pyval)) :=
  match v with
  | VDict d => Ok d
  | VObj _ fs => match assoc "items" fs with
                 | Some _ => Raise TypeError
                 | None => Raise AttributeError
                 end
  | _ => Raise AttributeError
  end.

(** Equality of two [items()] views, which is that of the dicts. *)
Definition items_eq (da db : list (string * pyval)) : bool :=
  py_eq (VDict da) (VDict db).

(** ['__cmp__' in dir(v)]: false for every value of Python 3. *)
Definition has_cmp (v : pyval) : bool := false.

Fixpoint chars (s : string) : list pyval :=
  match s with
  | EmptyString => []
  | String c s' => VStr (String c EmptyString) :: chars s'
  end.

(** [iter(v)] run to the end *)
Definition py_iter (v : pyval) : result (list pyval) :=
  match v with
  | VList l => Ok l
  | VStr s => Ok (chars s)
  | VDict d => Ok (map (fun kv => VStr (fst kv)) d)
  | _ => Raise TypeError
  end.

(** [hash(v)] succeeds: lists and dicts are unhashable, and so is an
    instance of a class that defines [__eq__] without [__hash__]. *)
Definition hashable (v : pyval) : bool :=
  match v with
  | VNone | VBool _ | VInt _ | VStr _ | VDatetime _ => true
  | _ => false
  end.

(** [set(v)], as the list of its members *)
Definition py_set (v : pyval) : result (list pyval) :=
  l <- py_iter v ;;
  if forallb hashable l then Ok l else Raise TypeError.

Definition subset (xs ys : list pyval) : bool :=
  forallb (fun x => existsb (py_eq x) ys) xs.

Definition set_eq (xs ys : list pyval) : bool := subset xs ys && subset ys xs.

(** [v[0]] *)
Definition py_first (v : pyval) : result pyval :=
  match v with
  | VList (x :: _) => Ok x
  | VList [] => Raise (OtherError "IndexError")
  | VStr (String c _) => Ok (VStr (String c EmptyString))
  | VStr EmptyString => Raise (OtherError "IndexError")
  | VDict _ => Raise KeyError
  | _ => Raise TypeError
  end.

(** ** The deep comparator *)

(** The two loop shapes of the comparator: a search that stops at the first
    hit, and a check that stops at the first miss.  An exception raised by
    the body ends the loop. *)
Section Loops.
Variables (A : Type) (f : A -> result bool).

Fixpoint any_of (l : list A) : result bool :=
  match l with
  | [] => Ok false
  | x :: l' => found <- f x ;; if found then Ok true else any_of l'
  end.

Fixpoint all_of (l : list A) : result bool :=
  match l with
  | [] => Ok true
  | x :: l' => ok <- f x ;; if negb ok then Ok false else all_of l'
  end.
End Loops.

(** The test of the inner loop over a list of dicts. *)
Definition same_items (item_a item_b : pyval) : result bool :=
  if has_cmp item_b then Ok (py_eq item_a item_b)
  else
    items_a <- py_items item_a ;;
    items_b <- py_items item_b ;;
    Ok (items_eq items_a items_b).

(** [__match_list].  It recurses on its first argument only. *)
Fixpoint match_list (list_a list_b : pyval) {struct list_a} : result bool :=
  if negb (truthy list_a) && negb (truthy list_b) then Ok true
  else if negb (truthy list_a) || negb (truthy list_b) then Ok false
  else
    first <- py_first list_a ;;
    if String.eqb (type_name first) "dict" then
      match list_a with
      | VList la =>
          lb <- py_iter list_b ;;
          all_of (fun item_a => any_of (same_items item_a) lb) la
      | _ => Raise TypeError
      end
    else if String.eqb (type_name first) "list" then
      match list_a with
      | VList la =>
          lb <- py_iter list_b ;;
          all_of (fun item_a => any_of (match_list item_a) lb) la
      | _ => Raise TypeError
      end
    else
      set_a <- py_set list_a ;;
      set_b <- py_set list_b ;;
      if negb (set_eq set_a set_b) then Ok false else Ok true.

(** One turn of the loop of [__match_dict] over [dict_a.items()], given the
    two recursive comparisons: [Ok true] lets the loop go on. *)
Definition match_entry (rec_list rec_dict : pyval -> result bool)
    (dict_b : pyval) (key_a : string) (value_a : pyval) : result bool :=
  absent <- py_not_in key_a dict_b ;;
  if absent then Ok false
  else
    value_b <- py_getitem dict_b key_a ;;
    if is_none value_a && is_none value_b then Ok true
    else if is_none value_a || is_none value_b then Ok false
    else if String.eqb (type_name value_a) "list" then
      sub_match <- rec_list value_b ;; Ok sub_match
    else if String.eqb (type_name value_a) "dict" then
      sub_match <- rec_dict value_b ;; Ok sub_match
    else if py_ne value_a value_b then Ok false
    else Ok true.

(** [__match_dict] *)
Fixpoint match_dict (dict_a dict_b : pyval) {struct dict_a} : result bool :=
  if negb (truthy dict_a) && negb (truthy dict_b) then Ok true
  else if negb (truthy dict_a) || negb (truthy dict_b) then Ok false
  else
    match dict_a with
    | VDict da =>
        all_of (fun kv =>
                  match_entry (match_list (snd kv)) (match_dict (snd kv))
                              dict_b (fst kv) (snd kv)) da
    | _ => Raise AttributeError
    end.

(** Modelled from the spec: [to_dict] of the generated model classes (the
    client library, not among the sources), which converts an instance "to
    mapping-of-field-to-value form": one entry per declared attribute,
    nested instances converted in turn, also those held directly in a list
    or as the values of a dict.  [to_dict_or_self v] is
    [v.to_dict() if hasattr(v, "to_dict") else v]. *)
Fixpoint to_dict_or_self (v : pyval) : pyval :=
  match v with
  | VObj _ fs =>
      VDict (map (fun ktv =>
                    (fst ktv,
                     match snd (snd ktv) with
                     | VList l => VList (map to_dict_or_self l)
                     | VDict d =>
                         VDict (map (fun kv => (fst kv, to_dict_or_self (snd kv))) d)
                     | VObj _ _ => to_dict_or_self (snd (snd ktv))
                     | x => x
                     end)) fs)
  | _ => v
  end.

(** [v.to_dict()] *)
Definition to_dict (v : pyval) : result pyval :=
  match v with
  | VObj _ _ => Ok (to_dict_or_self v)
  | _ => Raise AttributeError
  end.

(** [objects_match] *)
Definition objects_match (obj_a obj_b : pyval) : result bool :=
  if is_none obj_a && is_none obj_b then Ok true
  else if negb (truthy obj_a) || negb (truthy obj_b) then Ok false
  else if negb (String.eqb (type_name obj_a) (type_name obj_b)) then Ok false
  else
    dict_a <- to_dict obj_a ;;
    dict_b <- to_dict obj_b ;;
    match_dict dict_a dict_b.

(** ** Well-formed values *)

Fixpoint distinct (ks : list string) : bool :=
  match ks with
  | [] => true
  | k :: ks' => negb (existsb (String.eqb k) ks') && distinct ks'
  end.

(** The keys of every dict, and the attribute names of every instance, occur
    once: the invariant of the association-list representation. *)
Fixpoint nodup_deep (v : pyval) : bool :=
  match v with
  | VList l => forallb nodup_deep l
  | VDict d => distinct (map fst d) && forallb (fun kv => nodup_deep (snd kv)) d
  | VObj _ fs =>
      distinct (map fst fs) && forallb (fun ktv => nodup_deep (snd (snd ktv))) fs
  | _ => true
  end.

(** Two values are of the same declared kind: both scalars, both mappings,
    or both collections all of whose elements, across the two, are of the
    same kind.  A collection is homogeneous when it is of the same kind as
    itself. *)
Fixpoint same_kind (a b : pyval) {struct a} : bool :=
  match a, b with
  | VList la, VList lb => forallb (fun x => forallb (same_kind x) lb) la
  | VDict _, VDict _ => true
  | VList _, _ | VDict _, _ | VObj _ _, _ => false
  | _, _ => hashable b
  end.

(** The mapping form of a structured object: every collection the
    comparator walks is homogeneous, and no class is called [list] or
    [dict]. *)
Fixpoint well_typed (v : pyval) : bool :=
  match v with
  | VDict d => forallb (fun kv => well_typed (snd kv)) d
  | VList _ => same_kind v v
  | VObj cls _ => negb (String.eqb cls "list") && negb (String.eqb cls "dict")
  | _ => true
  end.


Definition is_dict (v : pyval) : bool :=
  match v with VDict _ => true | _ => false end.

Definition is_list (v : pyval) : bool :=
  match v with VList _ => true | _ => false end.

(** [a] and [b] are mappings with identical field/value pairs. *)
Definition identical (a b : pyval) : bool :=
  match a, b with
  | VDict da, VDict db => items_eq da db
  | _, _ => false
  end.

(** ** Induction over values *)

Section PyvalInd.
Variable P : pyval -> Prop.
Hypothesis HNone : P VNone.
Hypothesis HBool : forall b, P (VBool b).
Hypothesis HInt : forall z, P (VInt z).
Hypothesis HStr : forall s, P (VStr s).
Hypothesis HList : forall l, Forall P l -> P (VList l).
Hypothesis HDict : forall d, Forall (fun kv => P (snd kv)) d -> P (VDict d).
Hypothesis HObj :
  forall cls fs, Forall (fun ktv => P (snd (snd ktv))) fs -> P (VObj cls fs).
Hypothesis HDatetime : forall iso, P (VDatetime iso).

Fixpoint pyval_nested_ind (v : pyval) : P v :=
  match v with
  | VNone => HNone
  | VBool b => HBool b
  | VInt z => HInt z
  | VStr s => HStr s
  | VList l =>
      HList ((fix go (l : list pyval) : Forall P l :=
                match l with
                | [] => Forall_nil _
                | x :: l' => Forall_cons _ (pyval_nested_ind x) (go l')
                end) l)
  | VDict d =>
      HDict ((fix go (d : list (string * pyval))
                : Forall (fun kv => P (snd kv)) d :=
                match d with
                | [] => Forall_nil _
                | kv :: d' =>
                    Forall_cons _ (pyval_nested_ind (snd kv)) (go d')
                end) d)
  | VObj cls fs =>
      HObj cls ((fix go (fs : list (string * (string * pyval)))
                   : Forall (fun ktv => P (snd (snd ktv))) fs :=
                   match fs with
                   | [] => Forall_nil _
                   | ktv :: fs' =>
                       Forall_cons _ (pyval_nested_ind (snd (snd ktv))) (go fs')
                   end) fs)
  | VDatetime iso => HDatetime iso
  end.
End PyvalInd.

(** ** The sanitizer *)

(** [__remove_creation_timestamps].  The source mutates [obj] in place and
    returns nothing; the embedding returns the object as it is left.  The
    loop runs over [obj.swagger_types.items()]; each turn touches at most the
    attribute its key names, so it is a map over the declared fields.  A
    value without [swagger_types] is left alone. *)
Fixpoint remove_creation_timestamps (obj : pyval) : pyval :=
  match obj with
  | VObj cls fields =>
      VObj cls
        (map (fun ktv =>
                let key := fst ktv in
                let value := fst (snd ktv) in
                if String.eqb key "creation_timestamp" then (key, (value, VNone))
                else if String.prefix "dict(" value || String.prefix "list[" value
                then ktv
                else if String.eqb value "str" || String.eqb value "int"
                        || String.eqb value "bool"
                then ktv
                else if negb (is_none (snd (snd ktv)))
                then (key, (value, remove_creation_timestamps (snd (snd ktv))))
                else ktv) fields)
  | _ => obj
  end.

(** ** Version tokens *)

Definition is_digit (c : ascii) : bool :=
  (48 <=? nat_of_ascii c)%nat && (nat_of_ascii c <=? 57)%nat.

Definition digit_at (n : nat) (s : string) : bool :=
  match String.get n s with
  | Some c => is_digit c
  | None => false
  end.

(** [VERSION_RX.match(s)], the regular expression being
    [V\d((alpha|beta)\d)?]: the length of the match at the start of [s].
    The optional group is greedy. *)
Definition VERSION_RX_match (s : string) : option nat :=
  match s with
  | String "V" (String d rest) =>
      if is_digit d then
        if String.prefix "alpha" rest && digit_at 5 rest then Some 8%nat
        else if String.prefix "beta" rest && digit_at 4 rest then Some 7%nat
        else Some 2%nat
      else None
  | _ => None
  end.

(** [VERSION_RX.search(s)] finds a match somewhere in [s]. *)
Fixpoint VERSION_RX_search (s : string) : bool :=
  match VERSION_RX_match s with
  | Some _ => true
  | None => match s with
            | EmptyString => false
            | String _ s' => VERSION_RX_search s'
            end
  end.

(** [VERSION_RX.sub('', s)]: every match, scanning from the left, is
    dropped; [skip] counts the characters of the current match that are
    still to drop. *)
Fixpoint sub_from (skip : nat) (s : string) {struct s} : string :=
  match s with
  | EmptyString => EmptyString
  | String c s' =>
      match skip with
      | S n => sub_from n s'
      | O => match VERSION_RX_match s with
             | Some (S n) => sub_from n s'
             | _ => String c (sub_from 0 s')
             end
      end
  end.

Definition VERSION_RX_sub (s : string) : string := sub_from 0 s.

(** [get_base_model_name] *)
Definition get_base_model_name (model_name : string) : string :=
  VERSION_RX_sub model_name.

Fixpoint string_drop (n : nat) (s : string) : string :=
  match n, s with
  | S n', String _ s' => string_drop n' s'
  | _, _ => s
  end.

(** ** The cluster and the client library *)

(** What the helper does to the world, in order. *)
Inductive event : Type :=
| Called (api method : string) (args : list pyval) (body : bool)
| Slept (secs : Z).

(** The client library the helper drives (openshift.client, not among the
    sources), taken as a parameter: the names [dir(client.apis)] lists, which
    methods an instance of each class has, whether a method's signature has a
    [body] argument, and what a call does to the cluster [server] and
    returns.  [elapse] is the cluster moving on while the caller sleeps. *)
Record Client : Type := MkClient {
  server : Type;
  dir_apis : list string;
  has_method : string -> string -> bool;
  accepts_body : string -> string -> bool;
  invoke : string -> string -> list pyval -> bool -> server ->
           result pyval * server;
  elapse : Z -> server -> server
}.

(** The helper instance: [self.kind], and what
    [self.properties['status']['class']()] evaluates to. *)
Record Helper : Type := MkHelper {
  client : Client;
  kind : string;
  new_status : result pyval
}.

Record world (c : Client) : Type := MkWorld {
  srv : server c;
  log : list event
}.
Arguments MkWorld {c} srv log.
Arguments srv {c} w.
Arguments log {c} w.

(** [getattr(v, name)] and [hasattr(v, name)] for the declared attributes of
    a model instance. *)
Definition get_attr (v : pyval) (name : string) : result pyval :=
  match v with
  | VObj _ fs => match assoc name fs with
                 | Some tv => Ok (snd tv)
                 | None => Raise AttributeError
                 end
  | _ => Raise AttributeError
  end.

Definition has_attr (v : pyval) (name : string) : bool :=
  match get_attr v name with Ok _ => true | Raise _ => false end.

Fixpoint update_field (name : string) (x : pyval)
    (fs : list (string * (string * pyval))) : list (string * (string * pyval)) :=
  match fs with
  | [] => []
  | (k, (t, v)) :: fs' =>
      if String.eqb name k then (k, (t, x)) :: fs'
      else (k, (t, v)) :: update_field name x fs'
  end.

(** [v.name = x] through the property setter of a model instance; an
    attribute that is not declared does not reach the wire and is not
    recorded. *)
Definition set_attr (v : pyval) (name : string) (x : pyval) : result pyval :=
  match v with
  | VObj cls fs => Ok (VObj cls (update_field name x fs))
  | _ => Raise AttributeError
  end.

(** [json.loads(exc.body).get('message', exc.reason)] *)
Definition api_message (exc : ApiException) : result pyval :=
  match body_loads exc with
  | Loaded (VDict d) =>
      Ok (match assoc "message" d with
          | Some m => m
          | None => VStr (reason exc)
          end)
  | Loaded _ => Raise AttributeError
  | NotJson => Raise ValueError
  | NotText => Raise TypeError
  end.

(** The ceiling of half an integer, in exact arithmetic; the budget of the
    wait loops as the code computes it is [math_ceil_half] below. *)
Definition ceil_half (timeout : Z) : Z := (timeout + 1) / 2.

(** [timeout / 2] for an integer [timeout]: true division gives the float
    nearest to the quotient, with a significand of 53 bits and ties going to
    the even one, and raises [OverflowError] when that is too large for a
    float.  The float is given by twice its absolute value, an integer. *)
Definition float_half_twice (timeout : Z) : Z :=
  let a := Z.abs timeout in
  let bits := Z.log2 a + 1 in
  if bits <=? 53 then a
  else
    let shift := bits - 53 in
    let q := Z.shiftr a shift in
    let r := a mod 2 ^ shift in
    let halfway := 2 ^ (shift - 1) in
    let q' := if (halfway <? r) || ((r =? halfway) && Z.odd q)
              then q + 1 else q in
    q' * 2 ^ shift.

(** [math.ceil(timeout / 2)]: the ceiling of that float, which is exact. *)
Definition math_ceil_half (timeout : Z) : result Z :=
  let twice := float_half_twice timeout in
  if 2 ^ 1025 <=? twice then Raise (OtherError "OverflowError")
  else Ok (ceil_half (Z.sgn timeout * twice)).

(** [json.dumps(v)] goes through: a model instance or a [datetime] left in
    [v] makes it raise [TypeError]. *)
Fixpoint serialisable (v : pyval) : bool :=
  match v with
  | VNone | VBool _ | VInt _ | VStr _ => true
  | VList l => forallb serialisable l
  | VDict d => forallb (fun kv => serialisable (snd kv)) d
  | VObj _ _ | VDatetime _ => false
  end.

(** [json.dumps(v, indent=4)]; the text goes into a log message only and is
    not kept. *)
Definition json_dumps (v : pyval) : result unit :=
  if serialisable v then Ok tt else Raise TypeError.

Section Lifecycle.
Variable h : Helper.
Let c := client h.

(** Computations over the world that may raise. *)
Definition M (A : Type) : Type := world c -> result A * world c.

Definition ret {A : Type} (a : A) : M A := fun w => (Ok a, w).
Definition raise {A : Type} (e : exn) : M A := fun w => (Raise e, w).
Definition lift {A : Type} (r : result A) : M A := fun w => (r, w).
Definition bind {A B : Type} (m : M A) (k : A -> M B) : M B :=
  fun w => match m w with
           | (Ok a, w') => k a w'
           | (Raise e, w') => (Raise e, w')
           end.

(** [try: m  except ApiException as exc: handler(exc)] *)
Definition catch_api {A : Type} (m : M A) (handler : ApiException -> M A)
    : M A :=
  fun w => match m w with
           | (Raise (ApiExc exc), w') => handler exc w'
           | r => r
           end.

(** A call of a bound method of the client library. *)
Definition call (m : string * string) (args : list pyval) (body : bool)
    : M pyval :=
  fun w =>
    let (r, s') := invoke c (fst m) (snd m) args body (srv w) in
    (r, MkWorld s' (log w ++ [Called (fst m) (snd m) args body])%list).

(** [time.sleep(secs)] *)
Definition sleep (secs : Z) : M unit :=
  fun w => (Ok tt, MkWorld (elapse c secs (srv w)) (log w ++ [Slept secs])%list).
End Lifecycle.
Arguments ret {h A} a.
Arguments raise {h A} e.
Arguments lift {h A} r.
Arguments bind {h A B} m k.
Arguments catch_api {h A} m handler.

Declare Scope m_scope.
Delimit Scope m_scope with m.
Notation "x <-- m ;; k" := (bind m (fun x => k))
  (at level 61, m at next level, right associativity) : m_scope.

Section Operations.
Variable h : Helper.
Let c := client h.
Local Open Scope m_scope.

(** [__lookup_method] *)
Definition lookup_method (operation : string) (namespace : pyval)
    : result (string * string) :=
  let method_name :=
    operation ++ (if truthy namespace then "_namespaced_" else "_") ++ kind h in
  let apis := (filter VERSION_RX_search (dir_apis c) ++ ["OapiApi"])%list in
  match find (fun api => has_method c api method_name) apis with
  | Some api => Ok (api, method_name)
  | None =>
      let msg := if negb (truthy namespace)
                 then "Did you forget to include the namespace?" else "" in
      Raise (OpenShiftExc
               (MkOpenShiftException
                  (VStr ("Error: method " ++ method_name
                         ++ " not found for model " ++ kind h ++ ". " ++ msg))
                  None))
  end.

(** [get_object] *)
Definition get_object (name namespace : pyval) : M h pyval :=
  catch_api
    (get_method <-- lift (lookup_method "read" namespace) ;;
     if is_none namespace then call h get_method [name] false
     else call h get_method [name; namespace] false)
    (fun exc =>
       if negb (status exc =? 404) then
         msg <-- lift (api_message exc) ;;
         raise (OpenShiftExc (MkOpenShiftException msg (Some (status exc))))
       else ret VNone).

(** The shape of the three wait loops:
    [while tries <= half: <body>; tries += 2; time.sleep(2)], where the
    body may [break].  [body st] returns whether it broke and the local
    variables as it leaves them. *)
Equations? poll {S : Type} (body : S -> M h (bool * S)) (half tries : Z)
    (st : S) (w : world c) : result S * world c
    by wf (Z.to_nat (half - tries + 1)) lt :=
  poll body half tries st w with Z_le_gt_dec tries half := {
    | right _ => (Ok st, w)
    | left _ with body st w := {
        | (Raise e, w') => (Raise e, w')
        | (Ok (true, st'), w') => (Ok st', w')
        | (Ok (false, st'), w') =>
            poll body half (tries + 2) st' (snd (sleep h 2 w')) } }.
Proof. lia. Qed.

(** The body of the wait loop of [create_object] and [patch_object]; the
    one local variable that outlives the loop is [return_obj]. *)
Definition ready_body (name namespace : pyval) (return_obj : pyval)
    : M h (bool * pyval) :=
  obj <-- get_object name namespace ;;
  obj_status <-- lift (get_attr obj "status") ;;
  if has_attr obj_status "phase" then
    phase <-- lift (get_attr obj_status "phase") ;;
    if py_eq phase (VStr "Active") then ret (true, obj)
    else ret (false, obj)
  else if negb (is_none obj) then ret (true, obj)
  else ret (false, return_obj).

(** The first four statements of [patch_object], which reset the status
    and the resource version of [k8s_obj] and sanitize it in place: the
    object as they leave it. *)
Definition prepare_patch (k8s_obj : pyval) : result pyval :=
  (empty_status <- new_status h ;;
   k8s_obj <- set_attr k8s_obj "status" empty_status ;;
   metadata <- get_attr k8s_obj "metadata" ;;
   metadata <- set_attr metadata "resource_version" VNone ;;
   k8s_obj <- set_attr k8s_obj "metadata" metadata ;;
   Ok (remove_creation_timestamps k8s_obj))%res.

(** The argument of [logger.debug] in [patch_object], which is evaluated
    whether or not the message is logged:
    [json.dumps(k8s_obj.to_dict(), indent=4)]. *)
Definition debug_dump (k8s_obj : pyval) : result unit :=
  (dict <- to_dict k8s_obj ;; json_dumps dict)%res.

(** [patch_object] *)
Definition patch_object (name namespace k8s_obj : pyval) (wait : bool)
    (timeout : Z) : M h pyval :=
  k8s_obj <-- lift (prepare_patch k8s_obj) ;;
  _ <-- lift (debug_dump k8s_obj) ;;
  return_obj <--
    catch_api
      (patch_method <-- lift (lookup_method "patch" namespace) ;;
       if truthy namespace then call h patch_method [name; namespace; k8s_obj] false
       else call h patch_method [name; k8s_obj] false)
      (fun exc =>
         msg <-- lift (api_message exc) ;;
         raise (OpenShiftExc (MkOpenShiftException (VStr (exc_str exc)) None))) ;;
  if wait then
    half <-- lift (math_ceil_half timeout) ;;
    poll (ready_body name namespace) half 0 return_obj
  else ret return_obj.

(** The body of the wait loop of [create_object], which evaluates
    [k8s_obj.metadata.name] at every turn. *)
Definition created_body (namespace k8s_obj : pyval) (return_obj : pyval)
    : M h (bool * pyval) :=
  metadata <-- lift (get_attr k8s_obj "metadata") ;;
  name <-- lift (get_attr metadata "name") ;;
  ready_body name namespace return_obj.

(** [create_object] *)
Definition create_object (namespace k8s_obj : pyval) (wait : bool)
    (timeout : Z) : M h pyval :=
  return_obj <--
    catch_api
      (create_method <-- lift (lookup_method "create" namespace) ;;
       if is_none namespace then call h create_method [k8s_obj] false
       else call h create_method [namespace; k8s_obj] false)
      (fun exc =>
         msg <-- lift (api_message exc) ;;
         raise (OpenShiftExc (MkOpenShiftException msg (Some (status exc))))) ;;
  if wait then
    half <-- lift (math_ceil_half timeout) ;;
    poll (created_body namespace k8s_obj) half 0 return_obj
  else ret return_obj.

(** The body of the wait loop of [delete_object]. *)
Definition gone_body (name namespace : pyval) (st : unit) : M h (bool * unit) :=
  obj <-- get_object name namespace ;;
  if negb (truthy obj) then ret (true, tt) else ret (false, tt).

(** [delete_object]; the two branches on [namespace] differ in the
    arguments of the call only. *)
Definition delete_object (name namespace : pyval) (wait : bool) (timeout : Z)
    : M h pyval :=
  delete_method <-- lift (lookup_method "delete" namespace) ;;
  _ <-- catch_api
          (let args := if negb (truthy namespace) then [name]
                       else [name; namespace] in
           if accepts_body c (fst delete_method) (snd delete_method)
           then call h delete_method args true
           else call h delete_method args false)
          (fun exc =>
             msg <-- lift (api_message exc) ;;
             raise (OpenShiftExc (MkOpenShiftException msg (Some (status exc))))) ;;
  if wait then
    half <-- lift (math_ceil_half timeout) ;;
    _ <-- poll (gone_body name namespace) half 0 tt ;;
    ret VNone
  else ret VNone.

(** [update_object]: the body is [pass]. *)
Definition update_object (name namespace k8s_obj : pyval) : M h pyval :=
  ret VNone.
End Operations.

(** The positional arguments of the read call of [get_object]. *)
Definition read_args (name namespace : pyval) : list pyval :=
  if is_none namespace then [name] else [name; namespace].

(** The positional arguments of the call of [delete_object]. *)
Definition delete_args (name namespace : pyval) : list pyval :=
  if negb (truthy namespace) then [name] else [name; namespace].


(** The turns of [while tries <= half: ...; tries += 2] that does not break. *)
Definition turns_from (half tries : Z) : nat :=
  if tries <=? half then Z.to_nat ((half - tries) / 2 + 1) else 0%nat.

(** The number of read calls in a log. *)
Definition reads (l : list event) : nat :=
  List.length (filter (fun e => match e with
                                | Called _ m _ _ => String.prefix "read" m
                                | Slept _ => false
                                end) l).


(** ** A sample cluster *)

Definition sample_meta : pyval :=
  VObj "V1ObjectMeta"
    [("creation_timestamp", ("datetime", VDatetime "2017-05-01T09:30:00"));
     ("labels", ("dict(str, str)", VDict [("app", VStr "web")]));
     ("name", ("str", VStr "web"));
     ("resource_version", ("str", VStr "4217"))].

Definition sample_service : pyval :=
  VObj "V1Service"
    [("kind", ("str", VStr "Service"));
     ("metadata", ("V1ObjectMeta", sample_meta));
     ("spec", ("V1ServiceSpec",
               VObj "V1ServiceSpec"
                 [("ports", ("list[V1ServicePort]",
                             VList [VObj "V1ServicePort"
                                      [("port", ("int", VInt 80))];
                                    VObj "V1ServicePort"
                                      [("port", ("int", VInt 443))]]));
                  ("external_i_ps", ("list[str]", VList []))]));
     ("status", ("V1ServiceStatus",
                 VObj "V1ServiceStatus"
                   [("load_balancer", ("V1LoadBalancerStatus", VNone))]))].

Definition conflict : ApiException :=
  MkApiException 409 "Conflict"
    (Loaded (VDict [("kind", VStr "Status");
                    ("message", VStr "the object has been modified")]))
    "(409) Reason: Conflict".

Definition not_found : ApiException :=
  MkApiException 404 "Not Found"
    (Loaded (VDict [("message", VStr "services web not found")]))
    "(404) Reason: Not Found".

(** A cluster without state that answers a read with [on_read] and any
    other call with [on_write]. *)
Definition sample_client (on_read on_write : result pyval) : Client :=
  MkClient (server := unit)
    ["CoreV1Api"; "ExtensionsV1beta1Api"; "OapiApi"; "absolute_import"]
    (fun api _ => String.eqb api "CoreV1Api")
    (fun _ m => String.prefix "delete" m)
    (fun _ m _ _ s => (if String.prefix "read" m then on_read else on_write, s))
    (fun _ s => s).

Definition sample_helper (on_read on_write : result pyval) : Helper :=
  MkHelper (sample_client on_read on_write) "service"
    (Ok (VObj "V1ServiceStatus"
           [("load_balancer", ("V1LoadBalancerStatus", VNone))])).

Definition start (on_read on_write : result pyval)
    : world (client (sample_helper on_read on_write)) :=
  MkWorld (c := sample_client on_read on_write) tt [].

(** ** Shapes that compare without raising *)

(** Two mappings are comparable when, at every key they share, the values
    are of kinds the comparator can walk together: homogeneous collections of
    the same kind, mappings that are comparable in turn, or anything
    compared with [!=]. *)
Fixpoint comparable (a b : pyval) {struct a} : bool :=
  match a with
  | VDict da =>
      match b with
      | VDict db =>
          forallb (fun kv =>
                     match assoc (fst kv) db with
                     | None => true
                     | Some vb =>
                         is_none (snd kv) || is_none vb ||
                         match snd kv with
                         | VList _ =>
                             same_kind (snd kv) (snd kv) && same_kind vb vb
                             && same_kind (snd kv) vb
                         | VDict _ => comparable (snd kv) vb
                         | VObj cls _ =>
                             negb (String.eqb cls "list")
                             && negb (String.eqb cls "dict")
                         | _ => true
                         end
                     end) da
      | _ => false
      end
  | _ => false
  end.

(** The seconds slept in a log, and a log weighed event by event. *)
Definition weigh (f : event -> nat) (l : list event) : nat :=
  list_sum (map f l).

Definition read_weight (e : event) : nat :=
  match e with
  | Called _ m _ _ => if String.prefix "read" m then 1%nat else 0%nat
  | Slept _ => 0%nat
  end.

Definition sleep_weight (e : event) : nat :=
  match e with
  | Called _ _ _ _ => 0%nat
  | Slept secs => Z.to_nat secs
  end.

Definition slept (l : list event) : nat := weigh sleep_weight l.

(** A log grows by [evs], which holds at most one read and no sleep. *)
Definition grows_by_a_read (l l' : list event) : Prop :=
  exists evs, l' = (l ++ evs)%list
              /\ (weigh read_weight evs <= 1)%nat
              /\ weigh sleep_weight evs = 0%nat.

(** A log grows by events that are neither reads nor sleeps. *)
Definition grows_quietly (l l' : list event) : Prop :=
  exists evs, l' = (l ++ evs)%list
              /\ weigh read_weight evs = 0%nat
              /\ weigh sleep_weight evs = 0%nat.

(** A log grows by at most [n] reads and [2 * n] seconds of sleep. *)
Definition grows_within (n : nat) (l l' : list event) : Prop :=
  exists evs, l' = (l ++ evs)%list
              /\ (weigh read_weight evs <= n)%nat
              /\ (weigh sleep_weight evs <= 2 * n)%nat.

(** The API classes [__lookup_method] tries, in order. *)
Definition candidates (h : Helper) : list string :=
  (filter VERSION_RX_search (dir_apis (client h)) ++ ["OapiApi"])%list.

(** The name [__lookup_method] looks for. *)
Definition method_name_of (h : Helper) (operation : string) (namespace : pyval)
    : string :=
  operation ++ (if truthy namespace then "_namespaced_" else "_") ++ kind h.

(** ** What the sanitizer reaches *)

(** A declared wire type the sanitizer does not follow: a mapping, a
    collection or one of the three scalars. *)
Definition not_followed (value : string) : bool :=
  String.prefix "dict(" value || String.prefix "list[" value
  || String.eqb value "str" || String.eqb value "int" || String.eqb value "bool".

(** No [creation_timestamp] is set on the instance nor on an instance
    reached from it through attributes the sanitizer follows. *)
Fixpoint no_timestamps (obj : pyval) : bool :=
  match obj with
  | VObj _ fields =>
      forallb (fun ktv =>
                 if String.eqb (fst ktv) "creation_timestamp"
                 then is_none (snd (snd ktv))
                 else if not_followed (fst (snd ktv)) then true
                 else no_timestamps (snd (snd ktv))) fields
  | _ => true
  end.

(** The declared attributes of an instance: names and wire types. *)
Definition swagger_types (obj : pyval) : list (string * string) :=
  match obj with
  | VObj _ fields => map (fun ktv => (fst ktv, fst (snd ktv))) fields
  | _ => []
  end.

(** ** Model classes *)

Definition upper (ch : ascii) : ascii :=
  let n := nat_of_ascii ch in
  if (97 <=? n)%nat && (n <=? 122)%nat then ascii_of_nat (n - 32) else ch.

Definition lower (ch : ascii) : ascii :=
  let n := nat_of_ascii ch in
  if (65 <=? n)%nat && (n <=? 90)%nat then ascii_of_nat (n + 32) else ch.

Fixpoint map_string (f : ascii -> ascii) (s : string) : string :=
  match s with
  | EmptyString => EmptyString
  | String ch s' => String (f ch) (map_string f s')
  end.

(** [s.capitalize()], on ASCII text: the first character in upper case, the
    others in lower case. *)
Definition capitalize (s : string) : string :=
  match s with
  | EmptyString => EmptyString
  | String ch s' => String (upper ch) (map_string lower s')
  end.

(** [s[:1]] *)
Definition string_head (s : string) : string :=
  match s with
  | EmptyString => EmptyString
  | String ch _ => String ch EmptyString
  end.

(** The name [get_model] builds, [snake_case_to_camel] (of [string_utils])
    being a parameter. *)
Definition model_name_of (snake_case_to_camel : string -> string)
    (api_version kind : string) : string :=
  let camel_kind := snake_case_to_camel kind in
  let name := capitalize (string_head camel_kind) ++ string_drop 1 camel_kind in
  capitalize api_version ++ name.

(** [get_model]: [models] are the names [client.models] has; the class is
    given by its name. *)
Definition get_model (models : list string)
    (snake_case_to_camel : string -> string) (api_version kind : string)
    : result string :=
  let model_name := model_name_of snake_case_to_camel api_version kind in
  if existsb (String.eqb model_name) models then Ok model_name
  else Raise (OpenShiftExc
                (MkOpenShiftException
                   (VStr ("Error: openshift.client.models." ++ model_name
                          ++ " was not found. "
                          ++ "Did you specify the correct Kind and API Version?"))
                   None)).

(** The class of a property, as [properties_from_model_obj] records it. *)
Inductive prop_class : Type :=
| ClassStr
| ClassInt
| ClassBool
| ClassList
| ClassDict
| ClassModel (name : string).

(** A Python [property] object: whether it was given a setter function.
    Whatever it was given, the object has the attribute [setter], the method
    that decorates one: [getattr(p, 'setter', None)] is that method, which is
    true. *)
Record py_property : Type := MkProperty { fset : bool }.

Definition getattr_setter_truthy (p : py_property) : bool := true.

(** [d[k] = v] on a dict *)
Fixpoint dict_set {A : Type} (k : string) (v : A) (d : list (string * A))
    : list (string * A) :=
  match d with
  | [] => [(k, v)]
  | (k', v') :: d' =>
      if String.eqb k k' then (k', v) :: d' else (k', v') :: dict_set k v d'
  end.

(** The class for a declared wire type. *)
Definition class_of_kind (models : list string) (prop_kind : string)
    : result prop_class :=
  if String.eqb prop_kind "str" then Ok ClassStr
  else if String.eqb prop_kind "int" then Ok ClassInt
  else if String.eqb prop_kind "bool" then Ok ClassBool
  else if String.prefix "list[" prop_kind then Ok ClassList
  else if String.prefix "dict(" prop_kind then Ok ClassDict
  else if existsb (String.eqb prop_kind) models then Ok (ClassModel prop_kind)
  else Raise AttributeError.

(** [properties_from_model_obj]: [class_props] are the properties that
    [dir(model_class)] lists, in its order; [types] is
    [model_obj.swagger_types]. *)
Definition properties_from_model_obj (models : list string)
    (class_props : list (string * py_property)) (types : list (string * string))
    : result (list (string * (prop_class * bool))) :=
  let properties :=
    map (fun xp => (fst xp,
                    if getattr_setter_truthy (snd xp) then false else true))
        class_props in
  fold_left
    (fun acc prop =>
       result <- acc ;;
       prop_kind <- match assoc (fst prop) types with
                    | Some t => Ok t
                    | None => Raise KeyError
                    end ;;
       prop_class <- class_of_kind models prop_kind ;;
       Ok (dict_set (fst prop) (prop_class, snd prop) result))
    properties (Ok []).

(** ** Logging *)

(** The module's [LOGGING] *)
Definition LOGGING : pyval :=
  VDict
    [("version", VInt 1);
     ("disable_existing_loggers", VBool true);
     ("handlers",
      VDict [("file",
              VDict [("level", VStr "DEBUG");
                     ("class", VStr "logging.FileHandler");
                     ("filename", VStr "KubeObjHelper.log");
                     ("mode", VStr "a");
                     ("encoding", VStr "utf-8")]);
             ("null",
              VDict [("level", VStr "ERROR");
                     ("class", VStr "logging.NullHandler")])]);
     ("loggers",
      VDict [("openshift.helper",
              VDict [("handlers", VList [VStr "file"]);
                     ("level", VStr "INFO");
                     ("propagate", VBool false)])]);
     ("root",
      VDict [("handlers", VList [VStr "null"]); ("level", VStr "ERROR")])].

(** [container[key] = v] *)
Definition py_setitem (container : pyval) (key : string) (v : pyval)
    : result pyval :=
  match container with
  | VDict d => Ok (VDict (dict_set key v d))
  | _ => Raise TypeError
  end.

(** [enable_debug]: the dict it leaves in [LOGGING] and hands to
    [dictConfig], given the [LOGGING] it finds.  [__name__] is
    [openshift.helper]. *)
Definition enable_debug (reset_logfile : bool) (logging : pyval)
    : result pyval :=
  logging <-
    (if reset_logfile then
       loggers <- py_getitem logging "loggers" ;;
       handlers <- py_getitem loggers "handlers" ;;
       file <- py_getitem handlers "file" ;;
       file <- py_setitem file "mode" (VStr "w") ;;
       handlers <- py_setitem handlers "file" file ;;
       loggers <- py_setitem loggers "handlers" handlers ;;
       py_setitem logging "loggers" loggers
     else Ok logging) ;;
  loggers <- py_getitem logging "loggers" ;;
  logger <- py_getitem loggers "openshift.helper" ;;
  logger <- py_setitem logger "level" (VStr "DEBUG") ;;
  loggers <- py_setitem loggers "openshift.helper" logger ;;
  py_setitem logging "loggers" loggers.

(** One turn of the loop of [properties_from_model_obj] over the
    properties, [acc] being [result] so far or the exception raised. *)
Definition props_step (models : list string) (types : list (string * string))
    (acc : result (list (string * (prop_class * bool))))
    (prop : string * bool) : result (list (string * (prop_class * bool))) :=
  result <- acc ;;
  prop_kind <- match assoc (fst prop) types with
               | Some t => Ok t
               | None => Raise KeyError
               end ;;
  prop_class <- class_of_kind models prop_kind ;;
  Ok (dict_set (fst prop) (prop_class, snd prop) result).

(** A property the introspection can describe: it is declared, and its
    declared type has a class. *)
Definition describable (models : list string) (types : list (string * string))
    (name : string) : Prop :=
  exists t cls, assoc name types = Some t /\ class_of_kind models t = Ok cls.

(** * Properties *)

(** ** Loops *)

Section LoopFacts.
Variables (A : Type) (f : A -> result bool).

Lemma any_of_total (l : list A) :
  (forall x, In x l -> exists r, f x = Ok r) ->
  exists r, any_of f l = Ok r.
Proof.
  induction l as [|x l IH]; intros H; simpl.
  - eauto.
  - destruct (H x (or_introl eq_refl)) as [r Hr]. rewrite Hr.
    destruct r; [eauto|]. apply IH. intros y Hy. apply H. now right.
Qed.

Lemma any_of_hit (l : list A) (x : A) :
  (forall y, In y l -> exists r, f y = Ok r) ->
  In x l -> f x = Ok true -> any_of f l = Ok true.
Proof.
  induction l as [|y l IH]; intros Htot Hin Hx; simpl.
  - contradiction.
  - destruct (Htot y (or_introl eq_refl)) as [r Hr]. rewrite Hr.
    destruct r; [reflexivity|].
    destruct Hin as [->|Hin]; [congruence|].
    apply IH; auto. intros z Hz. apply Htot. now right.
Qed.

Lemma any_of_true_inv (l : list A) :
  any_of f l = Ok true -> exists x, In x l /\ f x = Ok true.
Proof.
  induction l as [|y l IH]; simpl; intros H.
  - discriminate.
  - destruct (f y) as [[|]|e] eqn:Hy; try discriminate.
    + exists y. auto.
    + destruct (IH H) as [x [Hin Hx]]. exists x. auto.
Qed.

Lemma all_of_true (l : list A) :
  (forall x, In x l -> f x = Ok true) -> all_of f l = Ok true.
Proof.
  induction l as [|x l IH]; intros H; simpl.
  - reflexivity.
  - rewrite (H x (or_introl eq_refl)). simpl. apply IH.
    intros y Hy. apply H. now right.
Qed.

Lemma all_of_true_inv (l : list A) :
  all_of f l = Ok true -> forall x, In x l -> f x = Ok true.
Proof.
  induction l as [|y l IH]; simpl; intros H x Hin.
  - contradiction.
  - destruct (f y) as [[|]|e] eqn:Hy; simpl in H; try discriminate.
    destruct Hin as [<-|Hin]; auto.
Qed.

Lemma all_of_total (l : list A) :
  (forall x, In x l -> exists r, f x = Ok r) ->
  exists r, all_of f l = Ok r.
Proof.
  induction l as [|x l IH]; intros H; simpl.
  - eauto.
  - destruct (H x (or_introl eq_refl)) as [r Hr]. rewrite Hr.
    destruct r; simpl; [|eauto]. apply IH. intros y Hy. apply H. now right.
Qed.
End LoopFacts.

(** ** Equality of values *)

Lemma assoc_distinct {A : Type} (d : list (string * A)) (k : string) (v : A) :
  distinct (map fst d) = true -> In (k, v) d -> assoc k d = Some v.
Proof.
  induction d as [|[k' v'] d IH]; simpl; intros Hd Hin.
  - contradiction.
  - apply andb_true_iff in Hd. destruct Hd as [Hk Hd].
    destruct Hin as [Heq|Hin].
    + inversion Heq; subst. now rewrite String.eqb_refl.
    + destruct (String.eqb k k') eqn:E.
      * apply String.eqb_eq in E. subst k'.
        apply negb_true_iff in Hk.
        assert (existsb (String.eqb k) (map fst d) = true) as Hex.
        { apply existsb_exists. exists k. split.
          - change k with (fst (k, v)). now apply in_map.
          - apply String.eqb_refl. }
        congruence.
      * now apply IH.
Qed.

Lemma forall2b_refl {A : Type} (eqb : A -> A -> bool) (l : list A) :
  Forall (fun x => eqb x x = true) l -> forall2b eqb l l = true.
Proof.
  induction 1; simpl; [reflexivity|]. now rewrite H, IHForall.
Qed.

Lemma py_eq_refl (v : pyval) : nodup_deep v = true -> py_eq v v = true.
Proof.
  induction v as [| b | z | s | l IH | d IH | cls fs IH | ?] using pyval_nested_ind;
    simpl; intros Hnd.
  - reflexivity.
  - now destruct b.
  - apply Z.eqb_refl.
  - apply String.eqb_refl.
  - apply forall2b_refl. rewrite Forall_forall in *. intros x Hx.
    apply IH; auto. rewrite forallb_forall in Hnd. auto.
  - apply andb_true_iff in Hnd. destruct Hnd as [Hk Hv].
    rewrite Nat.eqb_refl. simpl. apply forallb_forall. intros [k v] Hin. simpl.
    rewrite (assoc_distinct d k v Hk Hin).
    rewrite Forall_forall in IH. rewrite forallb_forall in Hv.
    apply (IH (k, v) Hin). apply (Hv (k, v) Hin).
  - apply andb_true_iff in Hnd. destruct Hnd as [Hk Hv].
    rewrite String.eqb_refl, Nat.eqb_refl. simpl.
    apply forallb_forall. intros [k [t v]] Hin. simpl.
    rewrite (assoc_distinct fs k (t, v) Hk Hin). simpl.
    rewrite String.eqb_refl. simpl.
    rewrite Forall_forall in IH. rewrite forallb_forall in Hv.
    apply (IH (k, (t, v)) Hin). apply (Hv (k, (t, v)) Hin).
  - apply String.eqb_refl.
Qed.

(** ** Kinds *)

Lemma same_kind_dict_r (a : pyval) (d : list (string * pyval)) :
  same_kind a (VDict d) = true -> is_dict a = true.
Proof. destruct a; simpl; congruence. Qed.

Lemma same_kind_dict_l (b : pyval) (d : list (string * pyval)) :
  same_kind (VDict d) b = true -> is_dict b = true.
Proof. destruct b; simpl; congruence. Qed.

Lemma same_kind_list_r (a : pyval) (l : list pyval) :
  same_kind a (VList l) = true -> is_list a = true.
Proof. destruct a; simpl; congruence. Qed.

Lemma same_kind_list_l (b : pyval) (l : list pyval) :
  same_kind (VList l) b = true -> is_list b = true.
Proof. destruct b; simpl; congruence. Qed.

Lemma same_kind_hashable_r (a b : pyval) :
  same_kind a b = true -> hashable b = true -> hashable a = true.
Proof. destruct a, b; simpl; congruence. Qed.

Lemma same_kind_hashable_l (a b : pyval) :
  same_kind a b = true -> hashable a = true -> hashable b = true.
Proof. destruct a, b; simpl; congruence. Qed.

Lemma same_kind_elems (la lb : list pyval) (a b : pyval) :
  same_kind (VList la) (VList lb) = true ->
  In a la -> In b lb -> same_kind a b = true.
Proof.
  simpl. intros H Ha Hb. rewrite forallb_forall in H.
  specialize (H a Ha). rewrite forallb_forall in H. auto.
Qed.

(** ** The comparator on collections *)

Lemma match_list_cons (x : pyval) (la : list pyval) (y : pyval) (lb : list pyval) :
  match_list (VList (x :: la)) (VList (y :: lb)) =
  if String.eqb (type_name x) "dict" then
    all_of (fun item_a => any_of (same_items item_a) (y :: lb)) (x :: la)
  else if String.eqb (type_name x) "list" then
    all_of (fun item_a => any_of (match_list item_a) (y :: lb)) (x :: la)
  else
    set_a <- py_set (VList (x :: la)) ;;
    set_b <- py_set (VList (y :: lb)) ;;
    if negb (set_eq set_a set_b) then Ok false else Ok true.
Proof. reflexivity. Qed.

Lemma match_list_nil_l (b : pyval) :
  match_list (VList []) b = Ok (negb (truthy b)).
Proof. simpl. now destruct (truthy b). Qed.

Lemma match_list_nil_r (x : pyval) (la : list pyval) :
  match_list (VList (x :: la)) (VList []) = Ok false.
Proof. reflexivity. Qed.

Lemma same_items_dicts (da db : list (string * pyval)) :
  same_items (VDict da) (VDict db) = Ok (items_eq da db).
Proof. reflexivity. Qed.

Lemma same_items_true_inv (a b : pyval) :
  same_items a b = Ok true -> identical a b = true.
Proof.
  unfold same_items, has_cmp. destruct a, b; simpl; try discriminate;
    try (destruct (assoc "items" fields); discriminate).
  intros H. now inversion H.
Qed.

Lemma same_items_total (a b : pyval) :
  is_dict a = true -> is_dict b = true ->
  same_items a b = Ok (identical a b).
Proof. destruct a, b; simpl; try discriminate. reflexivity. Qed.

Lemma py_set_hashable (l : list pyval) :
  forallb hashable l = true -> py_set (VList l) = Ok l.
Proof. unfold py_set. simpl. now intros ->. Qed.

(** On homogeneous collections of the same kind the comparison raises
    nothing. *)
Lemma match_list_total (a : pyval) :
  forall b, is_list a = true ->
    same_kind a a = true -> same_kind b b = true -> same_kind a b = true ->
    exists r, match_list a b = Ok r.
Proof.
  induction a as [| ? | ? | ? | la IH | ? ? | ? ? ? | ?] using pyval_nested_ind;
    try discriminate.
  intros b _ Haa Hbb Hab.
  pose proof (same_kind_list_l _ _ Hab) as Hb.
  destruct b as [| | | | lb | | |]; try discriminate. clear Hb.
  destruct la as [|x la]; [rewrite match_list_nil_l; eauto|].
  destruct lb as [|y lb]; [rewrite match_list_nil_r; eauto|].
  rewrite match_list_cons.
  assert (Hxx : same_kind x x = true)
    by (eapply same_kind_elems; [exact Haa | now left | now left]).
  destruct (String.eqb (type_name x) "dict") eqn:Ed;
    [|destruct (String.eqb (type_name x) "list") eqn:El].
  - (* a list of dicts *)
    assert (Hx : is_dict x = true).
    { destruct x; try discriminate Ed; try reflexivity. simpl in Hxx. discriminate. }
    destruct x; try discriminate Hx.
    apply all_of_total. intros a Ha. apply any_of_total. intros b Hb'.
    rewrite same_items_total; eauto.
    + eapply same_kind_dict_r. eapply same_kind_elems; [exact Haa | exact Ha | now left].
    + eapply same_kind_dict_l. eapply same_kind_elems; [exact Hab | now left | exact Hb'].
  - (* a list of lists *)
    assert (Hx : is_list x = true).
    { destruct x; try discriminate El; try reflexivity. simpl in Hxx. discriminate. }
    destruct x as [| | | | lx | | |]; try discriminate Hx.
    apply all_of_total. intros a Ha. apply any_of_total. intros b Hb'.
    rewrite Forall_forall in IH. apply IH; auto.
    + eapply same_kind_list_r. eapply same_kind_elems; [exact Haa | exact Ha | now left].
    + eapply same_kind_elems; [exact Haa | exact Ha | exact Ha].
    + eapply same_kind_elems; [exact Hbb | exact Hb' | exact Hb'].
    + eapply same_kind_elems; [exact Hab | exact Ha | exact Hb'].
  - (* a list of scalars *)
    assert (Hx : hashable x = true).
    { destruct x; try discriminate Ed; try discriminate El; try reflexivity.
      simpl in Hxx. discriminate. }
    rewrite py_set_hashable, py_set_hashable.
    + destruct (negb _); eauto.
    + apply forallb_forall. intros b Hb'.
      eapply same_kind_hashable_l; [|exact Hx].
      eapply same_kind_elems; [exact Hab | now left | exact Hb'].
    + apply forallb_forall. intros a Ha.
      eapply same_kind_hashable_r; [|exact Hx].
      eapply same_kind_elems; [exact Haa | exact Ha | now left].
Qed.

Lemma subset_refl (l : list pyval) :
  forallb hashable l = true -> subset l l = true.
Proof.
  intros H. unfold subset. apply forallb_forall. intros x Hx.
  apply existsb_exists. exists x. split; [exact Hx|].
  rewrite forallb_forall in H. specialize (H x Hx).
  destruct x; try discriminate; simpl.
  - reflexivity.
  - now destruct b.
  - apply Z.eqb_refl.
  - apply String.eqb_refl.
  - apply String.eqb_refl.
Qed.

(** A homogeneous collection matches itself. *)
Lemma match_list_refl (a : pyval) :
  is_list a = true -> same_kind a a = true -> nodup_deep a = true ->
  match_list a a = Ok true.
Proof.
  induction a as [| ? | ? | ? | la IH | ? ? | ? ? ? | ?] using pyval_nested_ind;
    try discriminate.
  intros _ Haa Hnd.
  destruct la as [|x la]; [reflexivity|].
  rewrite match_list_cons.
  assert (Hxx : same_kind x x = true)
    by (eapply same_kind_elems; [exact Haa | now left | now left]).
  assert (Hnd' : forall a, In a (x :: la) -> nodup_deep a = true).
  { simpl in Hnd. change (forallb nodup_deep (x :: la) = true) in Hnd.
    rewrite forallb_forall in Hnd. exact Hnd. }
  destruct (String.eqb (type_name x) "dict") eqn:Ed;
    [|destruct (String.eqb (type_name x) "list") eqn:El].
  - assert (Hx : is_dict x = true).
    { destruct x; try discriminate Ed; try reflexivity. simpl in Hxx. discriminate. }
    destruct x; try discriminate Hx.
    assert (Hd : forall a, In a (VDict d :: la) -> is_dict a = true).
    { intros a Ha. eapply same_kind_dict_r.
      eapply same_kind_elems; [exact Haa | exact Ha | now left]. }
    apply all_of_true. intros a Ha.
    apply any_of_hit with (x := a); auto.
    + intros b Hb. rewrite same_items_total; eauto.
    + rewrite same_items_total; auto. f_equal.
      specialize (Hd a Ha). destruct a; try discriminate Hd.
      apply py_eq_refl. auto.
  - assert (Hx : is_list x = true).
    { destruct x; try discriminate El; try reflexivity. simpl in Hxx. discriminate. }
    destruct x as [| | | | lx | | |]; try discriminate Hx.
    assert (Hl : forall a, In a (VList lx :: la) -> is_list a = true).
    { intros a Ha. eapply same_kind_list_r.
      eapply same_kind_elems; [exact Haa | exact Ha | now left]. }
    assert (Hk : forall a b, In a (VList lx :: la) -> In b (VList lx :: la) ->
                             same_kind a b = true).
    { intros a b Ha Hb. eapply same_kind_elems; [exact Haa | exact Ha | exact Hb]. }
    apply all_of_true. intros a Ha.
    apply any_of_hit with (x := a); auto.
    + intros b Hb. apply match_list_total; auto.
    + rewrite Forall_forall in IH. apply IH; auto.
  - assert (Hx : hashable x = true).
    { destruct x; try discriminate Ed; try discriminate El; try reflexivity.
      simpl in Hxx. discriminate. }
    assert (Hh : forallb hashable (x :: la) = true).
    { apply forallb_forall. intros a Ha.
      eapply same_kind_hashable_r; [|exact Hx].
      eapply same_kind_elems; [exact Haa | exact Ha | now left]. }
    rewrite py_set_hashable by exact Hh.
    unfold set_eq. rewrite subset_refl by exact Hh. reflexivity.
Qed.

(** ** The comparator on mappings *)

Lemma match_dict_cons (kv : string * pyval) (da : list (string * pyval))
    (dict_b : pyval) :
  truthy dict_b = true ->
  match_dict (VDict (kv :: da)) dict_b =
  all_of (fun kv => match_entry (match_list (snd kv)) (match_dict (snd kv))
                                dict_b (fst kv) (snd kv)) (kv :: da).
Proof. intros H. simpl. rewrite H. reflexivity. Qed.

Lemma match_entry_present (rec_list rec_dict : pyval -> result bool)
    (d : list (string * pyval)) (k : string) (v : pyval) :
  assoc k d = Some v ->
  match_entry rec_list rec_dict (VDict d) k v =
  if is_none v then Ok true
  else if String.eqb (type_name v) "list" then
    sub_match <- rec_list v ;; Ok sub_match
  else if String.eqb (type_name v) "dict" then
    sub_match <- rec_dict v ;; Ok sub_match
  else if py_ne v v then Ok false
  else Ok true.
Proof.
  intros H. unfold match_entry, py_not_in, py_getitem. rewrite H.
  destruct v; reflexivity.
Qed.

(** A well-formed mapping matches itself. *)
Lemma match_dict_refl (a : pyval) :
  is_dict a = true -> well_typed a = true -> nodup_deep a = true ->
  match_dict a a = Ok true.
Proof.
  induction a as [| ? | ? | ? | ? ? | d IH | ? ? ? | ?] using pyval_nested_ind;
    try discriminate.
  intros _ Hwt Hnd.
  destruct d as [|kv0 d0]; [reflexivity|].
  rewrite match_dict_cons by reflexivity.
  remember (kv0 :: d0) as d eqn:Hd. clear Hd kv0 d0.
  simpl in Hwt, Hnd. apply andb_true_iff in Hnd. destruct Hnd as [Hk Hv].
  rewrite forallb_forall in Hwt, Hv. rewrite Forall_forall in IH.
  apply all_of_true. intros [k v] Hin.
  specialize (Hwt _ Hin). specialize (Hv _ Hin). specialize (IH _ Hin).
  cbn [fst snd] in *.
  rewrite (match_entry_present _ _ d k (assoc_distinct d k v Hk Hin)).
  assert (Hne : py_ne v v = false)
    by (unfold py_ne; now rewrite py_eq_refl).
  destruct v as [| b | z | s | l | d' | cls fs | iso]; cbn [is_none type_name].
  - reflexivity.
  - now rewrite Hne.
  - now rewrite Hne.
  - now rewrite Hne.
  - change (String.eqb "list" "list") with true. cbv iota.
    now rewrite match_list_refl.
  - change (String.eqb "dict" "list") with false.
    change (String.eqb "dict" "dict") with true. cbv iota.
    now rewrite IH.
  - cbn [well_typed] in Hwt. apply andb_true_iff in Hwt. destruct Hwt as [H1 H2].
    apply negb_true_iff in H1, H2. now rewrite H1, H2, Hne.
  - now rewrite Hne.
Qed.


(** The hypothesis on the collections is needed: a collection that mixes
    kinds makes the comparison raise. *)
Example objects_match_mixed_collection :
  let x := VObj "V1Foo" [("xs", ("list[str]", VList [VInt 1; VDict []]))] in
  objects_match x x = Raise TypeError.
Proof. reflexivity. Qed.

(** On collections of mappings the comparison is the containment test. *)
Lemma match_list_dicts_iff (la lb : list pyval) :
  la <> [] -> lb <> [] ->
  (exists d rest, la = VDict d :: rest) ->
  forallb is_dict lb = true ->
  (match_list (VList la) (VList lb) = Ok true <->
   forall a, In a la -> exists b, In b lb /\ identical a b = true).
Proof.
  intros _ Hlb [d [rest ->]] Hdb.
  destruct lb as [|y lb]; [congruence|]. clear Hlb.
  rewrite match_list_cons. change (String.eqb (type_name (VDict d)) "dict") with true.
  cbv iota. rewrite forallb_forall in Hdb. split.
  - intros H a Ha.
    pose proof (all_of_true_inv _ _ H a Ha) as Hany.
    destruct (any_of_true_inv _ _ Hany) as [b [Hb Hab]].
    exists b. split; [exact Hb|]. now apply same_items_true_inv.
  - intros H. apply all_of_true. intros a Ha.
    destruct (H a Ha) as [b [Hb Hab]].
    assert (Had : is_dict a = true) by (destruct a; try discriminate; reflexivity).
    apply any_of_hit with (x := b); auto.
    + intros b' Hb'. rewrite same_items_total; eauto.
    + rewrite same_items_total; auto. now f_equal.
Qed.

Lemma identical_refl (a : pyval) :
  is_dict a = true -> nodup_deep a = true -> identical a a = true.
Proof.
  destruct a; try discriminate. intros _ H. now apply py_eq_refl.
Qed.

(** C2, as the code has it.  For two non-empty collections [la], [lb],
    the first element of [la] being a mapping and every element of [lb]
    being a mapping, [match_list] returns true if and only if every element
    of [la] has some element of [lb] with identical field/value pairs; so
    [[a; a; b]] matches [[a; b]] for mappings [a] and [b], and further
    mappings that only [lb] has go unnoticed. *)
Theorem match_list_containment (la lb : list pyval) :
  la <> [] -> lb <> [] ->
  (exists d rest, la = VDict d :: rest) ->
  forallb is_dict lb = true ->
  (match_list (VList la) (VList lb) = Ok true <->
   forall a, In a la -> exists b, In b lb /\ identical a b = true)
  /\ (forall a b, is_dict a = true -> is_dict b = true ->
        nodup_deep a = true -> nodup_deep b = true ->
        match_list (VList [a; a; b]) (VList [a; b]) = Ok true)
  /\ (forall extra, forallb is_dict extra = true ->
        match_list (VList la) (VList lb) = Ok true ->
        match_list (VList la) (VList (lb ++ extra)) = Ok true).
Proof.
  intros Hla Hlb Hfirst Hdb. split; [|split].
  - now apply match_list_dicts_iff.
  - intros a b Ha Hb Hna Hnb.
    destruct a as [| | | | | da | |]; try discriminate Ha.
    apply match_list_dicts_iff; try discriminate; eauto.
    + simpl. now rewrite Hb.
    + intros x [Hx|[Hx|[Hx|[]]]]; subst x.
      * exists (VDict da). split; [now left|]. now apply identical_refl.
      * exists (VDict da). split; [now left|]. now apply identical_refl.
      * exists b. split; [right; now left|]. now apply identical_refl.
  - intros extra Hex H.
    apply match_list_dicts_iff; auto.
    + destruct lb; [congruence|discriminate].
    + rewrite forallb_app. now rewrite Hdb, Hex.
    + intros a Ha.
      destruct (proj1 (match_list_dicts_iff Hla Hlb Hfirst Hdb) H a Ha)
        as [b [Hb Hab]].
      exists b. split; [apply in_or_app; now left | exact Hab].
Qed.

(** C2, as stated, fails when [lb] holds something that is no mapping: the
    one element of [la] has an identical element in [lb], yet the comparison
    meets the other element first and raises instead of returning true. *)
Lemma match_list_mixed_collection :
  (forall a, In a [VDict []] ->
     exists b, In b [VInt 1; VDict []] /\ identical a b = true)
  /\ match_list (VList [VDict []]) (VList [VInt 1; VDict []])
     = Raise AttributeError
  /\ match_list (VList [VDict []]) (VList [VInt 1; VDict []]) <> Ok true.
Proof.
  split; [|split; [reflexivity|discriminate]].
  intros a [<-|[]]. exists (VDict []). split; [right; now left|reflexivity].
Qed.

(** C10. [objects_match] tests nullity by truthiness: two equal, non-null
    but falsy arguments do not match, although two nulls do. *)
Theorem objects_match_falsy (a b : pyval) :
  a <> VNone -> b <> VNone ->
  truthy a = false -> truthy b = false -> py_eq a b = true ->
  objects_match a b = Ok false /\ objects_match VNone VNone = Ok true.
Proof.
  intros Ha Hb Hta Htb _. split; [|reflexivity].
  unfold objects_match. rewrite Hta, Htb.
  destruct a; try congruence; reflexivity.
Qed.

(** ** The sanitizer *)

(** C7. The sanitizer is idempotent: a second application to the sanitized
    object changes nothing. *)
Theorem remove_creation_timestamps_idempotent (obj : pyval) :
  remove_creation_timestamps (remove_creation_timestamps obj) =
  remove_creation_timestamps obj.
Proof.
  induction obj as [| ? | ? | ? | ? ? | ? ? | cls fs IH | ?] using pyval_nested_ind;
    try reflexivity.
  cbn [remove_creation_timestamps]. f_equal. rewrite map_map.
  apply map_ext_in. intros [k [t v]] Hin.
  rewrite Forall_forall in IH. specialize (IH _ Hin).
  cbn [fst snd] in *.
  destruct (String.eqb k "creation_timestamp") eqn:Ek.
  - cbn [fst snd]. now rewrite Ek.
  - destruct (String.prefix "dict(" t || String.prefix "list[" t) eqn:Ec.
    + cbn [fst snd]. now rewrite Ek, Ec.
    + destruct (String.eqb t "str" || String.eqb t "int" || String.eqb t "bool")
        eqn:Es.
      * cbn [fst snd]. now rewrite Ek, Ec, Es.
      * destruct (is_none v) eqn:En; cbn [negb fst snd]; rewrite Ek, Ec, Es.
        -- now rewrite En.
        -- rewrite IH. now destruct (is_none (remove_creation_timestamps v)).
Qed.

(** ** Version tokens *)

Lemma sub_from_skip (n : nat) (s : string) :
  sub_from n s = sub_from 0 (string_drop n s).
Proof.
  revert s. induction n as [|n IH]; intros s.
  - now destruct s.
  - destruct s as [|c s]; [reflexivity|]. simpl. apply IH.
Qed.

Lemma sub_from_no_token (s : string) :
  VERSION_RX_search s = false -> sub_from 0 s = s.
Proof.
  induction s as [|c s IH]; [reflexivity|].
  intros H. cbn [VERSION_RX_search] in H.
  cbn [sub_from].
  destruct (VERSION_RX_match (String c s)) as [k|]; [discriminate|].
  now rewrite IH.
Qed.

Lemma VERSION_RX_match_length (s : string) (n : nat) :
  VERSION_RX_match s = Some n -> (2 <= n)%nat.
Proof.
  unfold VERSION_RX_match. intros H.
  repeat match type of H with
         | match ?x with _ => _ end = _ => destruct x; try discriminate
         | (if ?x then _ else _) = _ => destruct x; try discriminate
         end; inversion H; lia.
Qed.

(** C8, as the code has it.  When the name starts with a version token and
    what follows holds no further token, [get_base_model_name] returns what
    follows, unchanged. *)
Theorem get_base_model_name_front (name : string) (n : nat) :
  VERSION_RX_match name = Some n ->
  VERSION_RX_search (string_drop n name) = false ->
  get_base_model_name name = string_drop n name.
Proof.
  intros Hm Hrest. pose proof (VERSION_RX_match_length _ Hm) as Hn.
  destruct name as [|c s]; [discriminate|].
  destruct n as [|n]; [lia|].
  unfold get_base_model_name, VERSION_RX_sub. cbn [sub_from].
  rewrite Hm. cbn [string_drop] in *.
  rewrite sub_from_skip. now apply sub_from_no_token.
Qed.

(** A name without a token is returned as it is. *)
Lemma get_base_model_name_no_token (name : string) :
  VERSION_RX_search name = false -> get_base_model_name name = name.
Proof. apply sub_from_no_token. Qed.

(** C8, as stated, fails: a token is stripped wherever it stands, so the
    rest of the name is not always left unchanged, and a token that is not
    at the front goes as well. *)
Lemma get_base_model_name_strips_everywhere :
  VERSION_RX_match "V1FooV2" = Some 2%nat
  /\ get_base_model_name "V1FooV2" = "Foo"
  /\ get_base_model_name "V1FooV2" <> string_drop 2 "V1FooV2"
  /\ VERSION_RX_match "AppsV1beta1Deployment" = None
  /\ get_base_model_name "AppsV1beta1Deployment" = "AppsDeployment".
Proof. repeat split; try reflexivity. discriminate. Qed.

Example get_base_model_name_samples :
  get_base_model_name "V1Service" = "Service"
  /\ get_base_model_name "V1beta1Deployment" = "Deployment"
  /\ get_base_model_name "V2alpha1CronJob" = "CronJob"
  /\ get_base_model_name "V1betaFoo" = "betaFoo".
Proof. repeat split. Qed.

(** ** The lifecycle operations *)

Section LifecycleFacts.
Variable h : Helper.
Let c := client h.

Lemma poll_step (S : Type) (body : S -> M h (bool * S))
    (half tries : Z) (st : S) (w : world c) :
  poll body half tries st w =
  if Z_le_gt_dec tries half then
    match body st w with
    | (Raise e, w') => (Raise e, w')
    | (Ok (true, st'), w') => (Ok st', w')
    | (Ok (false, st'), w') =>
        poll body half (tries + 2) st' (snd (sleep h 2 w'))
    end
  else (Ok st, w).
Proof.
  rewrite poll_equation_1. unfold poll_unfold_clause_1.
  destruct (Z_le_gt_dec tries half); [|reflexivity].
  destruct (body st w) as [[[[|] st']|e] w']; reflexivity.
Qed.

(** What [get_object] does with each outcome of the read call. *)
Lemma get_object_run (name namespace : pyval) (m : string * string)
    (w : world c) (r : result pyval) (s' : server c) :
  lookup_method h "read" namespace = Ok m ->
  invoke c (fst m) (snd m) (read_args name namespace) false (srv w) = (r, s') ->
  get_object h name namespace w =
  (match r with
   | Ok obj => Ok obj
   | Raise (ApiExc exc) =>
       if negb (status exc =? 404) then
         match api_message exc with
         | Ok msg =>
             Raise (OpenShiftExc (MkOpenShiftException msg (Some (status exc))))
         | Raise e => Raise e
         end
       else Ok VNone
   | Raise e => Raise e
   end,
   MkWorld s' (log w ++ [Called (fst m) (snd m) (read_args name namespace) false])).
Proof.
  intros Hl Hi. unfold get_object, catch_api, bind, lift. rewrite Hl.
  assert (Hc : call h m (read_args name namespace) false w =
               (r, MkWorld s' (log w ++ [Called (fst m) (snd m)
                                           (read_args name namespace) false])))
    by (unfold call; fold c; now rewrite Hi).
  unfold read_args in Hc |- *.
  destruct (is_none namespace); rewrite Hc;
    (destruct r as [obj|e]; [reflexivity|];
     destruct e as [| | | | |exc| |]; try reflexivity;
     destruct (negb (status exc =? 404)); try reflexivity;
     unfold raise; now destruct (api_message exc)).
Qed.

(** C3, as the code has it.  [get_object] returns [None] when the read call
    fails with status 404; on a failure with any other status whose body
    decodes to a JSON object, it raises an error that carries that status and
    the [message] of the body, or the [reason] of the failure when the body
    has no [message]; a read that succeeds returns the object. *)
Theorem get_object_spec (name namespace : pyval) (m : string * string)
    (w : world c) (r : result pyval) (s' : server c) :
  lookup_method h "read" namespace = Ok m ->
  invoke c (fst m) (snd m) (read_args name namespace) false (srv w) = (r, s') ->
  (forall exc, r = Raise (ApiExc exc) -> status exc = 404 ->
     fst (get_object h name namespace w) = Ok VNone)
  /\ (forall exc d, r = Raise (ApiExc exc) -> status exc <> 404 ->
        body_loads exc = Loaded (VDict d) ->
        fst (get_object h name namespace w) =
        Raise (OpenShiftExc
                 (MkOpenShiftException
                    (match assoc "message" d with
                     | Some msg => msg
                     | None => VStr (reason exc)
                     end)
                    (Some (status exc)))))
  /\ (forall obj, r = Ok obj -> fst (get_object h name namespace w) = Ok obj).
Proof.
  intros Hl Hi. rewrite (get_object_run name namespace w Hl Hi).
  repeat split.
  - intros exc -> Hs. cbn [fst]. rewrite Hs. reflexivity.
  - intros exc d -> Hs Hb. cbn [fst].
    apply Z.eqb_neq in Hs. rewrite Hs. cbn [negb].
    unfold api_message. now rewrite Hb.
  - now intros obj ->.
Qed.

(** C4, as the code has it.  [update_object] is a stub: for every input it
    returns [None], calls nothing and raises nothing. *)
Theorem update_object_noop (name namespace k8s_obj : pyval) (w : world c) :
  update_object h name namespace k8s_obj w = (Ok VNone, w).
Proof. reflexivity. Qed.

(** *** Errors of the transport *)

(** X24. When the create call fails with a transport exception whose body
    decodes, [create_object] raises the helper's error with the message of
    the body and the status of the exception, whatever [wait] is. *)
Lemma create_object_error (namespace k8s_obj : pyval) (wait : bool)
    (timeout : Z) (m : string * string) (w : world c) (exc : ApiException)
    (msg : pyval) (s' : server c) :
  lookup_method h "create" namespace = Ok m ->
  invoke c (fst m) (snd m)
         (if is_none namespace then [k8s_obj] else [namespace; k8s_obj])
         false (srv w) = (Raise (ApiExc exc), s') ->
  api_message exc = Ok msg ->
  fst (create_object h namespace k8s_obj wait timeout w) =
  Raise (OpenShiftExc (MkOpenShiftException msg (Some (status exc)))).
Proof.
  intros Hl Hi Hm. unfold create_object, catch_api, bind, lift, call.
  rewrite Hl. fold c.
  destruct (is_none namespace); rewrite Hi, Hm; reflexivity.
Qed.

(** X25. When the delete call fails with a transport exception whose body
    decodes, [delete_object] raises the helper's error with the message of
    the body and the status of the exception, and does not wait: the cluster
    is left as the failed call left it, and the delete call is all that was
    added to the log. *)
Lemma delete_object_error (name namespace : pyval) (wait : bool)
    (timeout : Z) (m : string * string) (w : world c) (exc : ApiException)
    (msg : pyval) (s' : server c) :
  lookup_method h "delete" namespace = Ok m ->
  invoke c (fst m) (snd m) (delete_args name namespace)
         (accepts_body c (fst m) (snd m)) (srv w) = (Raise (ApiExc exc), s') ->
  api_message exc = Ok msg ->
  delete_object h name namespace wait timeout w =
  (Raise (OpenShiftExc (MkOpenShiftException msg (Some (status exc)))),
   MkWorld s' (log w ++ [Called (fst m) (snd m) (delete_args name namespace)
                                (accepts_body c (fst m) (snd m))])).
Proof.
  intros Hl Hi Hm. unfold delete_object, catch_api, bind, lift, call.
  rewrite Hl. fold c. unfold delete_args in Hi |- *.
  destruct (accepts_body c (fst m) (snd m)); rewrite Hi, Hm; reflexivity.
Qed.

(** [patch_object] drops both: what it raises has no status, and its
    message is the rendering of the exception. *)
Lemma patch_object_error (name namespace k8s_obj payload : pyval) (wait : bool)
    (timeout : Z) (m : string * string) (w : world c) (exc : ApiException)
    (msg : pyval) (s' : server c) :
  prepare_patch h k8s_obj = Ok payload ->
  debug_dump payload = Ok tt ->
  lookup_method h "patch" namespace = Ok m ->
  invoke c (fst m) (snd m)
         (if truthy namespace then [name; namespace; payload] else [name; payload])
         false (srv w) = (Raise (ApiExc exc), s') ->
  api_message exc = Ok msg ->
  fst (patch_object h name namespace k8s_obj wait timeout w) =
  Raise (OpenShiftExc (MkOpenShiftException (VStr (exc_str exc)) None)).
Proof.
  intros Hp Hd Hl Hi Hm. unfold patch_object, catch_api, bind, lift, call.
  rewrite Hp, Hd, Hl. fold c.
  destruct (truthy namespace); rewrite Hi, Hm; reflexivity.
Qed.
End LifecycleFacts.

(** C3, as stated, fails for a failure whose body is not JSON: decoding it
    raises [ValueError] inside the handler, and that is what [get_object]
    raises; the status and the message of the failure are lost. *)
Lemma get_object_undecodable_body :
  let exc := MkApiException 500 "Internal Server Error" NotJson
                            "(500) Reason: Internal Server Error" in
  let h := sample_helper (Raise (ApiExc exc)) (Ok VNone) in
  let w := start (Raise (ApiExc exc)) (Ok VNone) in
  status exc <> 404
  /\ fst (get_object h (VStr "web") (VStr "default") w) = Raise ValueError
  /\ forall msg,
       fst (get_object h (VStr "web") (VStr "default") w)
       <> Raise (OpenShiftExc (MkOpenShiftException msg (Some (status exc)))).
Proof.
  intros exc h w. split; [discriminate|]. split; [reflexivity|].
  intros msg H. discriminate H.
Qed.

(** C5, where the code departs from it.  The cluster answers a write with
    a 409 whose body holds a message: [create_object] and [delete_object]
    raise an error with that message and that status, [patch_object] raises
    one with neither. *)
Theorem patch_object_loses_status :
  let h := sample_helper (Ok sample_service) (Raise (ApiExc conflict)) in
  let w := start (Ok sample_service) (Raise (ApiExc conflict)) in
  api_message conflict = Ok (VStr "the object has been modified")
  /\ fst (create_object h (VStr "default") sample_service false 60 w) =
     Raise (OpenShiftExc (MkOpenShiftException
                            (VStr "the object has been modified") (Some 409)))
  /\ fst (delete_object h (VStr "web") (VStr "default") false 60 w) =
     Raise (OpenShiftExc (MkOpenShiftException
                            (VStr "the object has been modified") (Some 409)))
  /\ fst (patch_object h (VStr "web") (VStr "default") sample_service false 60 w) =
     Raise (OpenShiftExc (MkOpenShiftException
                            (VStr "(409) Reason: Conflict") None)).
Proof. repeat split. Qed.

(** ** The wait loops *)

Lemma turns_from_step (half tries : Z) :
  tries <= half -> turns_from half tries = S (turns_from half (tries + 2)).
Proof.
  intros H. unfold turns_from.
  destruct (Z.leb_spec tries half); [|lia].
  destruct (Z.leb_spec (tries + 2) half).
  - rewrite <- Z2Nat.inj_succ by (Z.div_mod_to_equations; lia).
    f_equal. Z.div_mod_to_equations. lia.
  - replace ((half - tries) / 2) with 0 by (Z.div_mod_to_equations; lia).
    reflexivity.
Qed.


(** The turns of a wait that does not break, from its start: none for a
    negative budget, [half / 2 + 1] otherwise. *)
Lemma turns_from_zero (half : Z) :
  Z.of_nat (turns_from half 0) = if half <? 0 then 0 else half / 2 + 1.
Proof.
  unfold turns_from. destruct (Z.leb_spec 0 half), (Z.ltb_spec half 0); try lia.
  rewrite Z.sub_0_r. rewrite Z2Nat.id; [reflexivity|].
  Z.div_mod_to_equations. lia.
Qed.

(** Up to [2 ^ 53] the float is the exact half, and so is the budget. *)
Lemma float_half_exact (timeout : Z) :
  Z.abs timeout <= 2 ^ 53 -> float_half_twice timeout = Z.abs timeout.
Proof.
  intros H. unfold float_half_twice.
  destruct (Z.eq_dec (Z.abs timeout) (2 ^ 53)) as [E|N].
  - rewrite E. reflexivity.
  - destruct (Z.eq_dec (Z.abs timeout) 0) as [E0|N0].
    + rewrite E0. reflexivity.
    + assert (Hlog : Z.log2 (Z.abs timeout) < 53)
        by (apply Z.log2_lt_pow2; lia).
      destruct (Z.leb_spec (Z.log2 (Z.abs timeout) + 1) 53); [reflexivity|lia].
Qed.

Lemma math_ceil_half_exact (timeout : Z) :
  Z.abs timeout <= 2 ^ 53 -> math_ceil_half timeout = Ok (ceil_half timeout).
Proof.
  intros H. unfold math_ceil_half. rewrite (@float_half_exact timeout H).
  destruct (Z.leb_spec (2 ^ 1025) (Z.abs timeout)) as [Hbig|_].
  - assert (2 ^ 53 < 2 ^ 1025) by (apply Z.pow_lt_mono_r; lia). lia.
  - now rewrite Z.mul_comm, Z.abs_sgn.
Qed.

(** Past [2 ^ 53] the float is not always the exact half, and a timeout too
    large for a float makes the division raise. *)
Example math_ceil_half_rounds :
  math_ceil_half (2 ^ 54 + 6) = Ok (2 ^ 53 + 4)
  /\ ceil_half (2 ^ 54 + 6) = 2 ^ 53 + 3
  /\ math_ceil_half (2 ^ 60 + 4) = Ok (2 ^ 59)
  /\ ceil_half (2 ^ 60 + 4) = 2 ^ 59 + 2
  /\ math_ceil_half (10 ^ 400) = Raise (OtherError "OverflowError").
Proof. repeat split; vm_compute; reflexivity. Qed.


Section WaitLoops.
Variable h : Helper.
Let c := client h.



End WaitLoops.



(** With a timeout too large for a float the wait does not start: the
    delete call is made, and the division raises. *)
Example delete_object_wait_overflow :
  let h := sample_helper (Ok sample_service) (Ok VNone) in
  delete_object h (VStr "web") (VStr "default") true (10 ^ 400)
                (start (Ok sample_service) (Ok VNone))
  = (Raise (OtherError "OverflowError"),
     MkWorld (c := client h) tt
       [Called "CoreV1Api" "delete_namespaced_service"
               [VStr "web"; VStr "default"] true]).
Proof. vm_compute. reflexivity. Qed.

Section ReadyLoops.
Variable h : Helper.
Let c := client h.


End ReadyLoops.

(** The same from the outside: the object is created, the first poll finds
    nothing, and [create_object] and [patch_object] raise [AttributeError]. *)
Example create_object_wait_absent :
  let h := sample_helper (Raise (ApiExc not_found)) (Ok sample_service) in
  let w := start (Raise (ApiExc not_found)) (Ok sample_service) in
  fst (create_object h (VStr "default") sample_service true 60 w)
  = Raise AttributeError
  /\ fst (patch_object h (VStr "web") (VStr "default") sample_service true 60 w)
     = Raise AttributeError.
Proof.
  split.
  - unfold create_object, bind.
    match goal with
    | |- context [catch_api ?m ?k ?w] =>
        destruct (catch_api m k w) as [r w1] eqn:E
    end.
    vm_compute in E. inversion E; subst. unfold lift.
    rewrite (@math_ceil_half_exact 60 ltac:(discriminate)), poll_step.
    reflexivity.
  - unfold patch_object, bind at 1 2 3. unfold lift at 1 2.
    match goal with
    | |- context [prepare_patch ?h ?o] =>
        destruct (prepare_patch h o) as [payload|] eqn:Ep;
          [|vm_compute in Ep; discriminate]
    end.
    destruct (debug_dump payload) as [[]|] eqn:Ed;
      [|vm_compute in Ep; inversion Ep; subst; vm_compute in Ed; discriminate].
    match goal with
    | |- context [catch_api ?m ?k ?w] =>
        destruct (catch_api m k w) as [r w1] eqn:E
    end.
    vm_compute in Ep. inversion Ep; subst.
    vm_compute in E. inversion E; subst. unfold bind, lift.
    rewrite (@math_ceil_half_exact 60 ltac:(discriminate)), poll_step.
    reflexivity.
Qed.

(** C4, as stated, fails: [update_object] returns and raises nothing. *)
Lemma update_object_returns :
  let h := sample_helper (Ok sample_service) (Ok VNone) in
  let w := start (Ok sample_service) (Ok VNone) in
  update_object h (VStr "web") (VStr "default") sample_service w = (Ok VNone, w)
  /\ fst (update_object h (VStr "web") (VStr "default") sample_service w)
     <> Raise NotImplementedError.
Proof. split; [reflexivity|discriminate]. Qed.

(** ** The theorems at sample inputs *)


Lemma match_list_containment_witness :
  let a := VDict [("port", VInt 80)] in
  let b := VDict [("port", VInt 443); ("name", VStr "https")] in
  match_list (VList [a; a; b]) (VList [b; a]) = Ok true.
Proof.
  intros a b.
  apply (proj1 (@match_list_containment [a; a; b] [b; a]
                  ltac:(discriminate) ltac:(discriminate)
                  (ex_intro _ _ (ex_intro _ _ eq_refl)) eq_refl)).
  intros x [Hx|[Hx|[Hx|[]]]]; subst x.
  - exists a. split; [right; now left|reflexivity].
  - exists a. split; [right; now left|reflexivity].
  - exists b. split; [now left|reflexivity].
Defined.

Lemma get_object_spec_witness :
  let h := sample_helper (Raise (ApiExc conflict)) (Ok VNone) in
  let w := start (Raise (ApiExc conflict)) (Ok VNone) in
  fst (get_object h (VStr "web") (VStr "default") w) =
  Raise (OpenShiftExc (MkOpenShiftException
                         (VStr "the object has been modified") (Some 409))).
Proof.
  intros h w.
  refine (proj1 (proj2 (@get_object_spec h (VStr "web") (VStr "default")
                          ("CoreV1Api", "read_namespaced_service") w
                          (Raise (ApiExc conflict)) tt eq_refl eq_refl))
                conflict _ eq_refl _ eq_refl).
  discriminate.
Defined.


Lemma get_base_model_name_front_witness :
  VERSION_RX_match "V1beta1Deployment" = Some 7%nat
  /\ get_base_model_name "V1beta1Deployment" = "Deployment".
Proof.
  split; [reflexivity|].
  apply (@get_base_model_name_front "V1beta1Deployment" 7); reflexivity.
Defined.


Lemma objects_match_falsy_witness :
  objects_match (VDict []) (VDict []) = Ok false
  /\ objects_match VNone VNone = Ok true.
Proof.
  apply objects_match_falsy; (discriminate || reflexivity).
Defined.

(** * Further properties of the comparator *)

Lemma assoc_app_distinct {A : Type} (d extra : list (string * A)) (k : string)
    (v : A) :
  distinct (map fst d) = true -> In (k, v) d -> assoc k (d ++ extra) = Some v.
Proof.
  induction d as [|[k' v'] d IH]; simpl; intros Hd Hin.
  - contradiction.
  - apply andb_true_iff in Hd. destruct Hd as [Hk Hd].
    destruct (String.eqb k k') eqn:E.
    + destruct Hin as [Heq|Hin]; [now inversion Heq|].
      apply String.eqb_eq in E. subst k'. apply negb_true_iff in Hk.
      assert (existsb (String.eqb k) (map fst d) = true) as Hex.
      { apply existsb_exists. exists k. split.
        - change k with (fst (k, v)). now apply in_map.
        - apply String.eqb_refl. }
      congruence.
    + destruct Hin as [Heq|Hin].
      * inversion Heq; subst. now rewrite String.eqb_refl in E.
      * now apply IH.
Qed.

(** One turn of the loop of [__match_dict] on a value and itself. *)
Lemma match_entry_same (d : list (string * pyval)) (k : string) (v : pyval) :
  assoc k d = Some v -> well_typed v = true -> nodup_deep v = true ->
  match_entry (match_list v) (match_dict v) (VDict d) k v = Ok true.
Proof.
  intros Ha Hwt Hnd. rewrite (match_entry_present _ _ d k Ha).
  assert (Hne : py_ne v v = false) by (unfold py_ne; now rewrite py_eq_refl).
  destruct v as [| b | z | s | l | d' | cls fs | iso]; cbn [is_none type_name].
  - reflexivity.
  - now rewrite Hne.
  - now rewrite Hne.
  - now rewrite Hne.
  - change (String.eqb "list" "list") with true. cbv iota.
    now rewrite match_list_refl.
  - change (String.eqb "dict" "list") with false.
    change (String.eqb "dict" "dict") with true. cbv iota.
    now rewrite match_dict_refl.
  - cbn [well_typed] in Hwt. apply andb_true_iff in Hwt. destruct Hwt as [H1 H2].
    apply negb_true_iff in H1, H2. now rewrite H1, H2, Hne.
  - now rewrite Hne.
Qed.

(** X1. The comparison of mappings looks at the keys of its first argument
    only: keys that the second mapping has on top go unnoticed, unless the
    first mapping is empty. *)
Theorem match_dict_extra_keys (da extra : list (string * pyval)) :
  nodup_deep (VDict da) = true -> well_typed (VDict da) = true ->
  (da <> [] -> match_dict (VDict da) (VDict (da ++ extra)) = Ok true)
  /\ (extra <> [] -> match_dict (VDict []) (VDict extra) = Ok false).
Proof.
  intros Hnd Hwt. split.
  - intros Hne. destruct da as [|kv0 d0]; [congruence|].
    rewrite match_dict_cons by reflexivity.
    remember (kv0 :: d0) as d eqn:Hd. clear Hd Hne kv0 d0.
    simpl in Hwt, Hnd. apply andb_true_iff in Hnd. destruct Hnd as [Hk Hv].
    rewrite forallb_forall in Hwt, Hv.
    apply all_of_true. intros [k v] Hin. cbn [fst snd].
    apply match_entry_same.
    + now apply assoc_app_distinct.
    + apply (Hwt _ Hin).
    + apply (Hv _ Hin).
  - intros Hne. destruct extra; [congruence|reflexivity].
Qed.

Lemma match_dict_extra_keys_witness :
  match_dict (VDict [("app", VStr "web")])
             (VDict [("app", VStr "web"); ("tier", VStr "front")]) = Ok true
  /\ match_dict (VDict []) (VDict [("tier", VStr "front")]) = Ok false.
Proof.
  destruct (@match_dict_extra_keys [("app", VStr "web")]
              [("tier", VStr "front")] eq_refl eq_refl) as [H1 H2].
  split; [apply H1; discriminate | apply H2; discriminate].
Defined.

Lemma match_entry_true_inv (db : list (string * pyval)) (k : string) (v : pyval) :
  match_entry (match_list v) (match_dict v) (VDict db) k v = Ok true ->
  exists v', assoc k db = Some v'
             /\ is_none v = is_none v'
             /\ (hashable v = true -> py_eq v v' = true).
Proof.
  unfold match_entry, py_not_in, py_getitem.
  destruct (assoc k db) as [v'|]; [|discriminate].
  intros H. exists v'. split; [reflexivity|].
  destruct v as [| b | z | s | l | d' | cls fs | iso], v' as [| b' | z' | s' | l' | d'' | cls' fs' | iso'];
    cbn [is_none andb orb type_name hashable] in *; try discriminate;
    (split; [reflexivity|]); intros Hh; try discriminate; try reflexivity;
    repeat match type of H with
           | context [String.eqb ?a ?b] =>
               let r := eval vm_compute in (String.eqb a b) in
               change (String.eqb a b) with r in H; cbv iota in H
           end;
    unfold py_ne in H;
    match type of H with
    | (if negb ?e then _ else _) = _ => destruct e; [reflexivity|discriminate]
    end.
Qed.

(** X2. What a positive answer means for the scalar fields: every key of the
    first mapping is a key of the second, null on one side is null on the
    other, and the scalar values are equal. *)
Theorem match_dict_true_scalars (da db : list (string * pyval)) (k : string)
    (v : pyval) :
  match_dict (VDict da) (VDict db) = Ok true -> In (k, v) da ->
  exists v', assoc k db = Some v'
             /\ is_none v = is_none v'
             /\ (hashable v = true -> py_eq v v' = true).
Proof.
  intros H Hin. destruct da as [|kv0 d0]; [contradiction|].
  destruct db as [|kv1 d1]; [discriminate|].
  rewrite match_dict_cons in H by reflexivity.
  pose proof (all_of_true_inv _ _ H (k, v) Hin) as He. cbn [fst snd] in He.
  now apply match_entry_true_inv.
Qed.

Lemma match_dict_true_scalars_witness :
  exists v', assoc "port" [("name", VStr "http"); ("port", VInt 80)] = Some v'
             /\ is_none (VInt 80) = is_none v'
             /\ (hashable (VInt 80) = true -> py_eq (VInt 80) v' = true).
Proof.
  apply (@match_dict_true_scalars [("port", VInt 80)]
           [("name", VStr "http"); ("port", VInt 80)] "port" (VInt 80) eq_refl).
  now left.
Defined.

Lemma hashable_type_name (x : pyval) :
  hashable x = true ->
  String.eqb (type_name x) "dict" = false
  /\ String.eqb (type_name x) "list" = false.
Proof. destruct x; try discriminate; intros _; split; reflexivity. Qed.

Lemma hashable_py_eq_refl (x : pyval) : hashable x = true -> py_eq x x = true.
Proof. intros H. apply py_eq_refl. now destruct x. Qed.

(** X3. Collections of scalars compare as sets: the answer is the equality of
    the two sets of members, so it is the same in both directions, and
    neither order nor repetition matters. *)
Theorem match_list_scalars (la lb : list pyval) :
  la <> [] -> lb <> [] ->
  forallb hashable la = true -> forallb hashable lb = true ->
  match_list (VList la) (VList lb) = Ok (set_eq la lb)
  /\ match_list (VList la) (VList lb) = match_list (VList lb) (VList la)
  /\ ((forall x, In x la <-> In x lb) ->
      match_list (VList la) (VList lb) = Ok true).
Proof.
  intros Hla Hlb Ha Hb.
  assert (Hgen : forall la lb, la <> [] -> lb <> [] ->
                   forallb hashable la = true -> forallb hashable lb = true ->
                   match_list (VList la) (VList lb) = Ok (set_eq la lb)).
  { clear. intros la lb Hla Hlb Ha Hb.
    destruct la as [|x la]; [congruence|]. destruct lb as [|y lb]; [congruence|].
    rewrite match_list_cons.
    assert (Hx : hashable x = true) by (simpl in Ha; now apply andb_true_iff in Ha).
    destruct (hashable_type_name x Hx) as [-> ->].
    rewrite !py_set_hashable by assumption. now destruct (set_eq _ _). }
  split; [|split].
  - now apply Hgen.
  - rewrite !Hgen by assumption. unfold set_eq. now rewrite andb_comm.
  - intros Hmem. rewrite Hgen by assumption. f_equal.
    rewrite forallb_forall in Ha, Hb.
    unfold set_eq, subset. apply andb_true_iff. split.
    + apply forallb_forall. intros x Hx. apply existsb_exists.
      exists x. split; [now apply Hmem|]. apply hashable_py_eq_refl. auto.
    + apply forallb_forall. intros x Hx. apply existsb_exists.
      exists x. split; [now apply Hmem|]. apply hashable_py_eq_refl. auto.
Qed.

Lemma match_list_scalars_witness :
  let la := [VStr "a"; VStr "b"; VStr "a"] in
  let lb := [VStr "b"; VStr "a"] in
  match_list (VList la) (VList lb) = Ok (set_eq la lb)
  /\ match_list (VList la) (VList lb) = match_list (VList lb) (VList la)
  /\ ((forall x, In x la <-> In x lb) ->
      match_list (VList la) (VList lb) = Ok true).
Proof.
  intros la lb.
  apply (@match_list_scalars la lb); (discriminate || reflexivity).
Defined.

(** The tests on [type(value_a).__name__], for a built-in type. *)
Ltac eval_name_tests :=
  repeat match goal with
         | |- context [String.eqb ?a ?b] =>
             let r := eval vm_compute in (String.eqb a b) in
             change (String.eqb a b) with r; cbv iota
         end.

Lemma match_entry_total (db : list (string * pyval)) (k : string) (v : pyval) :
  (forall vb, assoc k db = Some vb ->
     is_none v = false -> is_none vb = false ->
     match v with
     | VList _ => exists r, match_list v vb = Ok r
     | VDict _ => exists r, match_dict v vb = Ok r
     | VObj cls _ => String.eqb cls "list" = false /\ String.eqb cls "dict" = false
     | _ => True
     end) ->
  exists r, match_entry (match_list v) (match_dict v) (VDict db) k v = Ok r.
Proof.
  intros H. unfold match_entry, py_not_in, py_getitem.
  destruct (assoc k db) as [vb|]; [|eauto].
  specialize (H vb eq_refl).
  destruct (is_none v) eqn:Ev, (is_none vb) eqn:Eb; cbn [andb orb]; eauto.
  specialize (H eq_refl eq_refl).
  destruct v as [| b | z | s | l | d' | cls fs | iso]; try discriminate Ev;
    cbn [type_name].
  - eval_name_tests. destruct (py_ne _ _); eauto.
  - eval_name_tests. destruct (py_ne _ _); eauto.
  - eval_name_tests. destruct (py_ne _ _); eauto.
  - change (String.eqb "list" "list") with true. cbv iota.
    destruct H as [r ->]. eauto.
  - change (String.eqb "dict" "list") with false.
    change (String.eqb "dict" "dict") with true. cbv iota.
    destruct H as [r ->]. eauto.
  - destruct H as [-> ->]. destruct (py_ne _ _); eauto.
  - eval_name_tests. destruct (py_ne _ _); eauto.
Qed.

(** On comparable mappings the comparison returns an answer: it raises
    nothing. *)
Lemma match_dict_total (a : pyval) :
  forall b, comparable a b = true -> exists r, match_dict a b = Ok r.
Proof.
  induction a as [| ? | ? | ? | ? ? | da IH | ? ? ? | ?] using pyval_nested_ind;
    try discriminate.
  intros b Hc. destruct b as [| | | | | db | |]; try discriminate Hc.
  destruct da as [|kv0 d0]; [destruct db; simpl; eauto|].
  destruct db as [|kv1 d1]; [simpl; eauto|].
  rewrite match_dict_cons by reflexivity.
  remember (kv0 :: d0) as da eqn:Hda. remember (kv1 :: d1) as db eqn:Hdb.
  clear Hda Hdb kv0 d0 kv1 d1.
  cbn [comparable] in Hc. rewrite forallb_forall in Hc. rewrite Forall_forall in IH.
  apply all_of_total. intros [k v] Hin. cbn [fst snd].
  specialize (Hc _ Hin). specialize (IH _ Hin). cbn [fst snd] in Hc, IH.
  apply match_entry_total. intros vb Hvb Hv Hb.
  rewrite Hvb, Hv, Hb in Hc. cbn [orb] in Hc.
  destruct v as [| b | z | s | l | d' | cls fs | iso]; auto.
  - apply andb_true_iff in Hc. destruct Hc as [Hc H3].
    apply andb_true_iff in Hc. destruct Hc as [H1 H2].
    now apply match_list_total.
  - apply andb_true_iff in Hc. destruct Hc as [H1 H2].
    apply negb_true_iff in H1, H2. auto.
Qed.

(** X4. [objects_match] raises nothing on two model instances whose mapping
    forms are comparable: it answers true or false. *)
Theorem objects_match_total (x y a b : pyval) :
  to_dict x = Ok a -> to_dict y = Ok b -> comparable a b = true ->
  exists r, objects_match x y = Ok r.
Proof.
  intros Ha Hb Hc. unfold objects_match. rewrite Ha, Hb.
  destruct (is_none x && is_none y); [eauto|].
  destruct (negb (truthy x) || negb (truthy y)); [eauto|].
  destruct (negb (String.eqb (type_name x) (type_name y))); [eauto|].
  now apply match_dict_total.
Qed.

Lemma objects_match_total_witness :
  exists r, objects_match sample_service sample_service = Ok r.
Proof.
  apply (@objects_match_total sample_service sample_service
           (to_dict_or_self sample_service) (to_dict_or_self sample_service));
    reflexivity.
Defined.

(** * Further properties of the lifecycle operations *)

(** ** Method lookup *)

Lemma find_first {A : Type} (f : A -> bool) (l : list A) (x : A) :
  find f l = Some x ->
  f x = true
  /\ exists before after, l = (before ++ x :: after)%list
                          /\ forall y, In y before -> f y = false.
Proof.
  induction l as [|y l IH]; simpl; [discriminate|].
  destruct (f y) eqn:Ey.
  - intros H. inversion H; subst. split; [exact Ey|].
    exists [], l. split; [reflexivity|]. intros ? [].
  - intros H. destruct (IH H) as [Hx [before [after [-> Hb]]]].
    split; [exact Hx|]. exists (y :: before), after. split; [reflexivity|].
    intros z [<-|Hz]; auto.
Qed.

Lemma lookup_method_unfold (h : Helper) (operation : string) (namespace : pyval) :
  lookup_method h operation namespace =
  match find (fun api => has_method (client h) api
                           (method_name_of h operation namespace))
             (candidates h) with
  | Some api => Ok (api, method_name_of h operation namespace)
  | None =>
      Raise (OpenShiftExc
               (MkOpenShiftException
                  (VStr ("Error: method " ++ method_name_of h operation namespace
                         ++ " not found for model " ++ kind h ++ ". "
                         ++ (if negb (truthy namespace)
                             then "Did you forget to include the namespace?"
                             else "")))
                  None))
  end.
Proof. reflexivity. Qed.

(** X5. What [__lookup_method] returns is a method of the expected name that the
    API class does have; the class is [OapiApi] or one of [dir(client.apis)]
    whose name holds a version token; and no class tried before it has the
    method. *)
Theorem lookup_method_found (h : Helper) (operation : string)
    (namespace : pyval) (api m : string) :
  lookup_method h operation namespace = Ok (api, m) ->
  m = method_name_of h operation namespace
  /\ has_method (client h) api m = true
  /\ (api = "OapiApi"
      \/ (In api (dir_apis (client h)) /\ VERSION_RX_search api = true))
  /\ exists before after,
       candidates h = (before ++ api :: after)%list
       /\ forall other, In other before -> has_method (client h) other m = false.
Proof.
  rewrite lookup_method_unfold.
  destruct (find _ (candidates h)) as [api'|] eqn:Hf; [|discriminate].
  intros H. inversion H; subst api' m. clear H.
  destruct (find_first _ _ Hf) as [Hm [before [after [Hc Hb]]]].
  split; [reflexivity|]. split; [exact Hm|]. split.
  - assert (Hin : In api (candidates h))
      by (rewrite Hc; apply in_or_app; right; now left).
    unfold candidates in Hin. apply in_app_or in Hin. destruct Hin as [Hin|Hin].
    + right. now apply filter_In in Hin.
    + left. destruct Hin as [<-|[]]. reflexivity.
  - exists before, after. split; [exact Hc|exact Hb].
Qed.

Lemma lookup_method_found_witness :
  let h := sample_helper (Ok sample_service) (Ok VNone) in
  let m := "read_namespaced_service" in
  m = method_name_of h "read" (VStr "default")
  /\ has_method (client h) "CoreV1Api" m = true
  /\ ("CoreV1Api" = "OapiApi"
      \/ (In "CoreV1Api" (dir_apis (client h))
          /\ VERSION_RX_search "CoreV1Api" = true))
  /\ exists before after,
       candidates h = (before ++ "CoreV1Api" :: after)%list
       /\ forall other, In other before -> has_method (client h) other m = false.
Proof.
  intros h m.
  apply (@lookup_method_found h "read" (VStr "default") "CoreV1Api" m eq_refl).
Defined.

(** X6. [__lookup_method] fails exactly when none of the classes it tries has
    the method; what it raises then is the helper's own error, without a
    status, and the hint about the namespace is there only when no namespace
    was given. *)
Theorem lookup_method_fails (h : Helper) (operation : string)
    (namespace : pyval) :
  ((forall api, In api (candidates h) ->
      has_method (client h) api (method_name_of h operation namespace) = false)
   <-> exists e, lookup_method h operation namespace = Raise e)
  /\ (forall e, lookup_method h operation namespace = Raise e ->
        e = OpenShiftExc
              (MkOpenShiftException
                 (VStr ("Error: method " ++ method_name_of h operation namespace
                        ++ " not found for model " ++ kind h ++ ". "
                        ++ (if truthy namespace then ""
                            else "Did you forget to include the namespace?")))
                 None)).
Proof.
  rewrite lookup_method_unfold. split; [split|].
  - intros Hnone.
    destruct (find _ (candidates h)) as [api|] eqn:Hf; [|eauto].
    apply find_some in Hf. destruct Hf as [Hin Hm].
    rewrite (Hnone api Hin) in Hm. discriminate.
  - intros [e He] api Hin.
    destruct (find _ (candidates h)) as [api'|] eqn:Hf; [discriminate|].
    apply (find_none _ _ Hf api Hin).
  - intros e He.
    destruct (find _ (candidates h)) as [api'|]; [discriminate|].
    inversion He. now destruct (truthy namespace).
Qed.

Lemma lookup_method_raises_own (h : Helper) (operation : string)
    (namespace : pyval) (e : exn) :
  lookup_method h operation namespace = Raise e ->
  exists ose, e = OpenShiftExc ose.
Proof.
  rewrite lookup_method_unfold.
  destruct (find _ (candidates h)); [discriminate|].
  intros H. inversion H. eauto.
Qed.

(** ** Errors and edges of the single calls *)

Section CallFacts.
Variable h : Helper.
Let c := client h.

Lemma catch_api_own {A : Type} (m : M h A) (handler : ApiException -> M h A)
    (w w' : world c) (e : OpenShiftException) :
  m w = (Raise (OpenShiftExc e), w') ->
  catch_api m handler w = (Raise (OpenShiftExc e), w').
Proof. intros H. unfold catch_api. now rewrite H. Qed.

(** X7. When no API class has the method, [get_object], [create_object] and
    [delete_object] raise the error of the lookup and call nothing.
    [patch_object] calls nothing either; it raises the error of the lookup
    when the statements before the lookup go through, that is when the
    object can be prepared and its mapping form can be rendered as JSON for
    the debug message (otherwise one of them raises first). *)
Theorem no_method_no_call (name namespace k8s_obj payload : pyval)
    (wait : bool) (timeout : Z) (w : world c) (e : exn) :
  (lookup_method h "read" namespace = Raise e ->
   get_object h name namespace w = (Raise e, w))
  /\ (lookup_method h "create" namespace = Raise e ->
      create_object h namespace k8s_obj wait timeout w = (Raise e, w))
  /\ (lookup_method h "delete" namespace = Raise e ->
      delete_object h name namespace wait timeout w = (Raise e, w))
  /\ (lookup_method h "patch" namespace = Raise e ->
      snd (patch_object h name namespace k8s_obj wait timeout w) = w
      /\ (prepare_patch h k8s_obj = Ok payload ->
          debug_dump payload = Ok tt ->
          patch_object h name namespace k8s_obj wait timeout w = (Raise e, w))).
Proof.
  split; [|split; [|split]]; intros Hl;
    destruct (lookup_method_raises_own _ _ _ Hl) as [ose ->].
  - unfold get_object, catch_api, bind, lift. now rewrite Hl.
  - unfold create_object, catch_api, bind, lift. now rewrite Hl.
  - unfold delete_object, bind, lift. now rewrite Hl.
  - split.
    + unfold patch_object, catch_api, bind, lift. rewrite Hl.
      destruct (prepare_patch h k8s_obj) as [p|]; [|reflexivity].
      now destruct (debug_dump p).
    + intros Hp Hd. unfold patch_object, catch_api, bind, lift.
      now rewrite Hp, Hd, Hl.
Qed.

(** X8. [get_object] on a failure that is no 404: a body that is not JSON makes
    it raise [ValueError], and the status is lost; a JSON object without a
    [message] gives the [reason] as the message.  On a 404 the body is not
    looked at. *)
Theorem get_object_body_edges (name namespace : pyval) (m : string * string)
    (w : world c) (exc : ApiException) (s' : server c) :
  lookup_method h "read" namespace = Ok m ->
  invoke c (fst m) (snd m) (read_args name namespace) false (srv w)
  = (Raise (ApiExc exc), s') ->
  (status exc <> 404 -> body_loads exc = NotJson ->
   fst (get_object h name namespace w) = Raise ValueError)
  /\ (forall d, status exc <> 404 -> body_loads exc = Loaded (VDict d) ->
        assoc "message" d = None ->
        fst (get_object h name namespace w) =
        Raise (OpenShiftExc (MkOpenShiftException (VStr (reason exc))
                                                  (Some (status exc)))))
  /\ (status exc = 404 -> fst (get_object h name namespace w) = Ok VNone).
Proof.
  intros Hl Hi. rewrite (get_object_run h name namespace w Hl Hi). cbn [fst].
  repeat split.
  - intros Hs Hb. apply Z.eqb_neq in Hs. rewrite Hs. cbn [negb].
    unfold api_message. now rewrite Hb.
  - intros d Hs Hb Hm. apply Z.eqb_neq in Hs. rewrite Hs. cbn [negb].
    unfold api_message. now rewrite Hb, Hm.
  - intros Hs. now rewrite Hs.
Qed.

(** X9. An empty string as the namespace: the lookup takes it for no namespace
    and finds the cluster-wide method, yet [get_object] passes it on as a
    second argument. *)
Theorem get_object_empty_namespace (name : pyval) (m : string * string)
    (w : world c) :
  lookup_method h "read" (VStr "") = Ok m ->
  snd m = "read_" ++ kind h
  /\ log (snd (get_object h name (VStr "") w)) =
     (log w ++ [Called (fst m) (snd m) [name; VStr ""] false])%list.
Proof.
  intros Hl. split.
  - destruct m as [api mn].
    rewrite lookup_method_unfold in Hl.
    destruct (find _ (candidates h)); [|discriminate]. now inversion Hl.
  - destruct (invoke c (fst m) (snd m) (read_args name (VStr "")) false (srv w))
      as [r s'] eqn:Hi.
    rewrite (get_object_run h name (VStr "") w Hl Hi). reflexivity.
Qed.
End CallFacts.

Lemma no_method_no_call_witness :
  let h' := MkHelper (MkClient (server := unit) [] (fun _ _ => false)
                               (fun _ _ => false)
                               (fun _ _ _ _ s => (Ok VNone, s)) (fun _ s => s))
                     "widget" (Ok VNone) in
  let w := MkWorld (c := client h') tt [] in
  (exists e, get_object h' (VStr "w1") VNone w = (Raise e, w))
  /\ (exists e, patch_object h' (VStr "w1") VNone sample_service false 60 w
                = (Raise e, w)).
Proof.
  intros h' w. split; eexists.
  - apply (proj1 (@no_method_no_call h' (VStr "w1") VNone VNone VNone false 60
                    w _)).
    reflexivity.
  - eapply (proj2 (proj2 (proj2 (proj2
              (@no_method_no_call h' (VStr "w1") VNone sample_service _ false
                 60 w _))) eq_refl)); reflexivity.
Defined.

Lemma get_object_body_edges_witness :
  let exc := MkApiException 401 "Unauthorized" NotJson "(401) Unauthorized" in
  let h := sample_helper (Raise (ApiExc exc)) (Ok VNone) in
  fst (get_object h (VStr "web") (VStr "default")
                  (start (Raise (ApiExc exc)) (Ok VNone))) = Raise ValueError.
Proof.
  intros exc h.
  apply (proj1 (@get_object_body_edges h (VStr "web") (VStr "default")
                  ("CoreV1Api", "read_namespaced_service")
                  (start (Raise (ApiExc exc)) (Ok VNone)) exc tt
                  eq_refl eq_refl)); [discriminate|reflexivity].
Defined.

Lemma get_object_empty_namespace_witness :
  let h := sample_helper (Ok sample_service) (Ok VNone) in
  let w := start (Ok sample_service) (Ok VNone) in
  "read_service" = "read_" ++ kind h
  /\ log (snd (get_object h (VStr "web") (VStr "") w)) =
     (log w ++ [Called "CoreV1Api" "read_service" [VStr "web"; VStr ""] false])%list.
Proof.
  intros h w.
  apply (@get_object_empty_namespace h (VStr "web") ("CoreV1Api", "read_service") w
           eq_refl).
Defined.

(** ** Bounds on the wait loops, whatever the cluster answers *)

Lemma weigh_app (f : event -> nat) (l1 l2 : list event) :
  weigh f (l1 ++ l2) = (weigh f l1 + weigh f l2)%nat.
Proof. unfold weigh. now rewrite map_app, list_sum_app. Qed.

Lemma reads_weigh (l : list event) : reads l = weigh read_weight l.
Proof.
  unfold reads, weigh. induction l as [|e l IH]; [reflexivity|].
  simpl. destruct e as [api m args body|secs]; simpl.
  - destruct (String.prefix "read" m); simpl; now rewrite IH.
  - exact IH.
Qed.

Lemma turns_from_sleep_bound (timeout : Z) :
  0 <= timeout ->
  2 * Z.of_nat (turns_from (ceil_half timeout) 0) <= ceil_half timeout + 2.
Proof.
  intros H. rewrite turns_from_zero. unfold ceil_half.
  destruct (Z.ltb_spec ((timeout + 1) / 2) 0); Z.div_mod_to_equations; lia.
Qed.

Section Bounds.
Variable h : Helper.
Let c := client h.

Lemma grows_refl (l : list event) : grows_by_a_read l l.
Proof. exists []. rewrite app_nil_r. repeat split; unfold weigh; simpl; lia. Qed.

Lemma get_object_log (name namespace : pyval) (w : world c) :
  grows_by_a_read (log w) (log (snd (get_object h name namespace w))).
Proof.
  destruct (lookup_method h "read" namespace) as [m|e] eqn:Hl.
  - destruct (invoke c (fst m) (snd m) (read_args name namespace) false (srv w))
      as [r s'] eqn:Hi.
    rewrite (get_object_run h name namespace w Hl Hi). cbn [snd log].
    eexists. split; [reflexivity|]. unfold weigh. simpl.
    destruct (String.prefix "read" (snd m)); split; simpl; lia.
  - destruct (lookup_method_raises_own _ _ _ Hl) as [ose ->].
    unfold get_object, catch_api, bind, lift. rewrite Hl. apply grows_refl.
Qed.

Lemma ready_body_log (name namespace return_obj : pyval) (w : world c) :
  snd (ready_body h name namespace return_obj w)
  = snd (get_object h name namespace w).
Proof.
  unfold ready_body, bind, lift, ret.
  destruct (get_object h name namespace w) as [[obj|e] w1]; [|reflexivity].
  destruct (get_attr obj "status") as [st|]; [|reflexivity].
  destruct (has_attr st "phase").
  - destruct (get_attr st "phase") as [ph|]; [|reflexivity].
    now destruct (py_eq ph (VStr "Active")).
  - now destruct (negb (is_none obj)).
Qed.

Lemma gone_body_log (name namespace : pyval) (st : unit) (w : world c) :
  snd (gone_body h name namespace st w) = snd (get_object h name namespace w).
Proof.
  unfold gone_body, bind, ret.
  destruct (get_object h name namespace w) as [[obj|e] w1]; [|reflexivity].
  now destruct (negb (truthy obj)).
Qed.

Lemma created_body_log (namespace k8s_obj return_obj : pyval) (w : world c) :
  grows_by_a_read (log w)
                  (log (snd (created_body h namespace k8s_obj return_obj w))).
Proof.
  unfold created_body, bind at 1 2, lift.
  destruct (get_attr k8s_obj "metadata") as [md|]; [|apply grows_refl].
  destruct (get_attr md "name") as [name|]; [|apply grows_refl].
  rewrite ready_body_log. apply get_object_log.
Qed.

(** The loop runs its body at most [turns_from half tries] times and sleeps
    2 after each turn that goes on. *)
Lemma poll_grows (S : Type) (body : S -> M h (bool * S)) (half : Z) :
  (forall st w, grows_by_a_read (log w) (log (snd (body st w)))) ->
  forall (k : nat) (tries : Z) (st : S) (w : world c),
    (Z.to_nat (half - tries + 1) <= k)%nat ->
    exists evs,
      log (snd (poll body half tries st w)) = (log w ++ evs)%list
      /\ (weigh read_weight evs <= turns_from half tries)%nat
      /\ (weigh sleep_weight evs <= 2 * turns_from half tries)%nat.
Proof.
  intros Hb. induction k as [|k IH]; intros tries st w Hk; rewrite poll_step;
    destruct (Z_le_gt_dec tries half) as [Hle|Hgt]; try lia;
    try (exists []; rewrite app_nil_r; repeat split; unfold weigh; simpl; lia).
  destruct (Hb st w) as [evs [Hlog [Hr Hs]]].
  rewrite (turns_from_step Hle).
  destruct (body st w) as [[[[|] st']|e] w1]; cbn [snd] in Hlog.
  - exists evs. repeat split; [exact Hlog|lia|lia].
  - destruct (IH (tries + 2) st' (snd (sleep h 2 w1))) as [evs' [Hlog' [Hr' Hs']]];
      [lia|].
    exists (evs ++ Slept 2 :: evs')%list. split; [|split].
    + rewrite Hlog'. cbn [sleep snd log]. rewrite Hlog.
      rewrite <- !app_assoc. reflexivity.
    + rewrite weigh_app. change (Slept 2 :: evs') with ([Slept 2] ++ evs')%list.
      rewrite weigh_app. unfold weigh at 2. simpl. lia.
    + rewrite weigh_app. change (Slept 2 :: evs') with ([Slept 2] ++ evs')%list.
      rewrite weigh_app. unfold weigh at 2. simpl.
      change (Pos.to_nat 2) with 2%nat. lia.
  - exists evs. repeat split; [exact Hlog|lia|lia].
Qed.
End Bounds.

Section OperationBounds.
Variable h : Helper.
Let c := client h.

Lemma call_keeps_reads (operation : string) (namespace : pyval)
    (m : string * string) (args : list pyval) (body : bool) :
  lookup_method h operation namespace = Ok m ->
  String.prefix "read" operation = false ->
  (3 < String.length operation)%nat ->
  weigh read_weight [Called (fst m) (snd m) args body] = 0%nat.
Proof.
  intros Hl Hp Hlen. destruct m as [api mn].
  rewrite lookup_method_unfold in Hl.
  destruct (find _ (candidates h)); [|discriminate]. inversion Hl; subst.
  unfold weigh, method_name_of. cbn [map read_weight snd list_sum].
  destruct operation as [|c1 [|c2 [|c3 [|c4 rest]]]]; simpl in Hlen; try lia.
  cbn [append]. cbn [append String.prefix] in Hp |- *.
  destruct (ascii_dec "r" c1); [|reflexivity].
  destruct (ascii_dec "e" c2); [|reflexivity].
  destruct (ascii_dec "a" c3); [|reflexivity].
  destruct (ascii_dec "d" c4); [|reflexivity].
  destruct rest; discriminate Hp.
Qed.

Lemma error_handler_keeps (A : Type) (exc : ApiException) (w : world c)
    (build : pyval -> exn) :
  snd (bind (lift (api_message exc)) (fun msg => raise (A := A) (build msg)) w)
  = w.
Proof. unfold bind, lift, raise. now destruct (api_message exc). Qed.

Lemma catch_call_log (m : string * string) (args : list pyval) (body : bool)
    (build : ApiException -> pyval -> exn) (w : world c) :
  log (snd (catch_api (call h m args body)
                      (fun exc => bind (lift (api_message exc))
                                       (fun msg => raise (A := pyval)
                                                         (build exc msg))) w))
  = (log w ++ [Called (fst m) (snd m) args body])%list.
Proof.
  unfold catch_api, call. fold c.
  destruct (invoke c (fst m) (snd m) args body (srv w)) as [[r|e] s'];
    [reflexivity|].
  destruct e; try reflexivity.
  rewrite (@error_handler_keeps pyval e _ (build e)). reflexivity.
Qed.

Lemma grows_quietly_refl (l : list event) : grows_quietly l l.
Proof. exists []. rewrite app_nil_r. repeat split. Qed.

Lemma grows_within_refl (n : nat) (l : list event) : grows_within n l l.
Proof. exists []. rewrite app_nil_r. repeat split; unfold weigh; simpl; lia. Qed.

Lemma grows_quietly_within (n : nat) (l l1 l2 : list event) :
  grows_quietly l l1 -> grows_within n l1 l2 -> grows_within n l l2.
Proof.
  intros [e1 [-> [Hr1 Hs1]]] [e2 [-> [Hr2 Hs2]]].
  exists (e1 ++ e2)%list. rewrite <- app_assoc. split; [reflexivity|].
  rewrite !weigh_app. lia.
Qed.

Lemma poll_within (S : Type) (body : S -> M h (bool * S)) (half : Z) (st : S)
    (w : world c) :
  (forall st w, grows_by_a_read (log w) (log (snd (body st w)))) ->
  grows_within (turns_from half 0) (log w) (log (snd (poll body half 0 st w))).
Proof.
  intros Hb.
  apply (@poll_grows h S body half Hb (Z.to_nat (half - 0 + 1)) 0 st w). lia.
Qed.

(** The first call of an operation, with its handler: one event that is no
    read, or none when the lookup fails. *)
Lemma first_call_quiet (operation : string) (namespace : pyval)
    (args : list pyval) (body : string * string -> bool)
    (build : ApiException -> pyval -> exn) (w : world c) :
  String.prefix "read" operation = false ->
  (3 < String.length operation)%nat ->
  grows_quietly
    (log w)
    (log (snd (catch_api
                 (bind (lift (lookup_method h operation namespace))
                       (fun m => call h m args (body m)))
                 (fun exc => bind (lift (api_message exc))
                                  (fun msg => raise (A := pyval) (build exc msg)))
                 w))).
Proof.
  intros Hp Hlen.
  destruct (lookup_method h operation namespace) as [m|e] eqn:Hl.
  - exists [Called (fst m) (snd m) args (body m)]. split; [|split].
    + rewrite <- (catch_call_log m args (body m) build w).
      unfold catch_api, bind, lift. reflexivity.
    + exact (@call_keeps_reads operation namespace m args (body m) Hl Hp Hlen).
    + reflexivity.
  - destruct (lookup_method_raises_own _ _ _ Hl) as [ose ->].
    unfold catch_api, bind, lift. apply grows_quietly_refl.
Qed.
End OperationBounds.

Lemma grows_within_counts (n : nat) (l l' : list event) :
  grows_within n l l' ->
  (reads l' <= reads l + n)%nat /\ (slept l' <= slept l + 2 * n)%nat.
Proof.
  intros [evs [-> [Hr Hs]]]. rewrite !reads_weigh. unfold slept.
  rewrite !weigh_app. lia.
Qed.

Section OperationBoundsTop.
Variable h : Helper.
Let c := client h.

Lemma create_object_within (namespace k8s_obj : pyval) (wait : bool)
    (timeout : Z) (w : world c) :
  Z.abs timeout <= 2 ^ 53 ->
  grows_within (turns_from (ceil_half timeout) 0) (log w)
               (log (snd (create_object h namespace k8s_obj wait timeout w))).
Proof.
  intros Hb. unfold create_object. unfold bind at 1.
  match goal with
  | |- context [catch_api ?m ?k w] =>
      assert (Hq : grows_quietly (log w) (log (snd (catch_api m k w))));
        [|destruct (catch_api m k w) as [[r|e] w1]]
  end.
  - destruct (is_none namespace).
    + exact (@first_call_quiet h "create" namespace [k8s_obj] (fun _ => false)
               (fun exc msg => OpenShiftExc
                  (MkOpenShiftException msg (Some (status exc)))) w
               eq_refl ltac:(simpl; lia)).
    + exact (@first_call_quiet h "create" namespace [namespace; k8s_obj]
               (fun _ => false)
               (fun exc msg => OpenShiftExc
                  (MkOpenShiftException msg (Some (status exc)))) w
               eq_refl ltac:(simpl; lia)).
  - cbn [snd] in Hq. apply (grows_quietly_within Hq). destruct wait.
    + unfold bind, lift. rewrite (@math_ceil_half_exact timeout Hb).
      apply poll_within. intros st w'. apply created_body_log.
    + apply grows_within_refl.
  - cbn [snd] in Hq. apply (grows_quietly_within Hq). apply grows_within_refl.
Qed.

Lemma patch_object_within (name namespace k8s_obj : pyval) (wait : bool)
    (timeout : Z) (w : world c) :
  Z.abs timeout <= 2 ^ 53 ->
  grows_within (turns_from (ceil_half timeout) 0) (log w)
               (log (snd (patch_object h name namespace k8s_obj wait timeout w))).
Proof.
  intros Hb. unfold patch_object. unfold bind at 1. unfold lift at 1.
  destruct (prepare_patch h k8s_obj) as [payload|e]; [|apply grows_within_refl].
  unfold bind at 1. unfold lift at 1.
  destruct (debug_dump payload) as [[]|e]; [|apply grows_within_refl].
  unfold bind at 1.
  match goal with
  | |- context [catch_api ?m ?k w] =>
      assert (Hq : grows_quietly (log w) (log (snd (catch_api m k w))));
        [|destruct (catch_api m k w) as [[r|e] w1]]
  end.
  - destruct (truthy namespace).
    + exact (@first_call_quiet h "patch" namespace [name; namespace; payload]
               (fun _ => false)
               (fun exc msg => OpenShiftExc
                  (MkOpenShiftException (VStr (exc_str exc)) None)) w
               eq_refl ltac:(simpl; lia)).
    + exact (@first_call_quiet h "patch" namespace [name; payload]
               (fun _ => false)
               (fun exc msg => OpenShiftExc
                  (MkOpenShiftException (VStr (exc_str exc)) None)) w
               eq_refl ltac:(simpl; lia)).
  - cbn [snd] in Hq. apply (grows_quietly_within Hq). destruct wait.
    + unfold bind, lift. rewrite (@math_ceil_half_exact timeout Hb).
      apply poll_within. intros st w'. rewrite ready_body_log.
      apply get_object_log.
    + apply grows_within_refl.
  - cbn [snd] in Hq. apply (grows_quietly_within Hq). apply grows_within_refl.
Qed.

Lemma delete_object_within (name namespace : pyval) (wait : bool)
    (timeout : Z) (w : world c) :
  Z.abs timeout <= 2 ^ 53 ->
  grows_within (turns_from (ceil_half timeout) 0) (log w)
               (log (snd (delete_object h name namespace wait timeout w))).
Proof.
  intros Hb. unfold delete_object. unfold bind at 1. unfold lift at 1.
  destruct (lookup_method h "delete" namespace) as [md|e] eqn:Hl;
    [|apply grows_within_refl].
  unfold bind at 1.
  match goal with
  | |- context [catch_api ?m ?k w] =>
      assert (Hq : grows_quietly (log w) (log (snd (catch_api m k w))));
        [|destruct (catch_api m k w) as [[r|e] w1]]
  end.
  - exists [Called (fst md) (snd md) (delete_args name namespace)
                   (accepts_body (client h) (fst md) (snd md))].
    split; [|split].
    + unfold delete_args.
      destruct (accepts_body (client h) (fst md) (snd md));
        apply (@catch_call_log h md _ _
                 (fun exc msg => OpenShiftExc
                    (MkOpenShiftException msg (Some (status exc)))) w).
    + exact (@call_keeps_reads h "delete" namespace md _ _ Hl eq_refl
               ltac:(simpl; lia)).
    + reflexivity.
  - cbn [snd] in Hq. apply (grows_quietly_within Hq). destruct wait.
    + unfold bind, ret, lift. rewrite (@math_ceil_half_exact timeout Hb).
      pose proof (@poll_within h unit (gone_body h name namespace)
                    (ceil_half timeout) tt w1) as Hp.
      destruct (poll (gone_body h name namespace) (ceil_half timeout) 0 tt w1)
        as [[u|e] w2]; apply Hp; intros st w'; rewrite gone_body_log;
        apply get_object_log.
    + apply grows_within_refl.
  - cbn [snd] in Hq. apply (grows_quietly_within Hq). apply grows_within_refl.
Qed.

(** X10. For an integer timeout of at most [2 ^ 53] in absolute value (up
    to there the float the code computes the budget with is the exact half),
    whatever the cluster answers, and whether they return or raise,
    [create_object], [patch_object] and [delete_object] read at most
    [turns_from (ceil_half timeout) 0] times and sleep at most twice as many
    seconds: for a timeout that is not negative, at most
    [ceil(timeout/2) + 2] seconds, about half the timeout. *)
Theorem operations_bounded (name namespace k8s_obj : pyval) (wait : bool)
    (timeout : Z) (w : world c) (w' : world c) :
  Z.abs timeout <= 2 ^ 53 ->
  w' = snd (create_object h namespace k8s_obj wait timeout w)
  \/ w' = snd (patch_object h name namespace k8s_obj wait timeout w)
  \/ w' = snd (delete_object h name namespace wait timeout w) ->
  (reads (log w') <= reads (log w) + turns_from (ceil_half timeout) 0)%nat
  /\ (slept (log w') <= slept (log w) + 2 * turns_from (ceil_half timeout) 0)%nat
  /\ (0 <= timeout ->
      Z.of_nat (slept (log w')) <= Z.of_nat (slept (log w)) + ceil_half timeout + 2).
Proof.
  intros Hb Hw.
  assert (Hg : grows_within (turns_from (ceil_half timeout) 0) (log w) (log w')).
  { destruct Hw as [Hw | [Hw | Hw]]; subst w'.
    - now apply create_object_within.
    - now apply patch_object_within.
    - now apply delete_object_within. }
  destruct (grows_within_counts Hg) as [Hr Hs].
  split; [exact Hr|]. split; [exact Hs|].
  intros Ht. pose proof (turns_from_sleep_bound Ht). lia.
Qed.
End OperationBoundsTop.

Lemma operations_bounded_witness :
  let h := sample_helper (Ok sample_service) (Ok VNone) in
  let w := start (Ok sample_service) (Ok VNone) in
  let w' := snd (delete_object h (VStr "web") (VStr "default") true 60 w) in
  (reads (log w') <= reads (log w) + turns_from (ceil_half 60) 0)%nat
  /\ (slept (log w') <= slept (log w) + 2 * turns_from (ceil_half 60) 0)%nat
  /\ (0 <= 60 ->
      Z.of_nat (slept (log w')) <= Z.of_nat (slept (log w)) + ceil_half 60 + 2).
Proof.
  intros h w w'.
  apply (@operations_bounded h (VStr "web") (VStr "default") VNone true 60 w w').
  - discriminate.
  - right. right. reflexivity.
Defined.

(** ** The wait loops on a cluster that behaves *)

Section WaitOutcomes.
Variable h : Helper.
Let c := client h.

Lemma call_run (m : string * string) (args : list pyval) (body : bool)
    (w : world c) (r : result pyval) (s' : server c) :
  invoke c (fst m) (snd m) args body (srv w) = (r, s') ->
  call h m args body w
  = (r, MkWorld s' (log w ++ [Called (fst m) (snd m) args body])).
Proof. intros H. unfold call. fold c. now rewrite H. Qed.

(** X11. [delete_object] with [wait] and an integer timeout of at most
    [2 ^ 53] in absolute value whose half is not negative, the object being
    gone at the first poll: one delete call, one read, no sleep, and [None]
    is returned. *)
Theorem delete_object_gone_at_once (name namespace : pyval) (timeout : Z)
    (md mr : string * string) (w : world c) (r : pyval) (s1 s2 : server c)
    (exc : ApiException) :
  Z.abs timeout <= 2 ^ 53 ->
  lookup_method h "delete" namespace = Ok md ->
  lookup_method h "read" namespace = Ok mr ->
  invoke c (fst md) (snd md) (delete_args name namespace)
         (accepts_body c (fst md) (snd md)) (srv w) = (Ok r, s1) ->
  invoke c (fst mr) (snd mr) (read_args name namespace) false s1
  = (Raise (ApiExc exc), s2) ->
  status exc = 404 ->
  0 <= ceil_half timeout ->
  delete_object h name namespace true timeout w
  = (Ok VNone,
     MkWorld s2 (log w ++ [Called (fst md) (snd md) (delete_args name namespace)
                                  (accepts_body c (fst md) (snd md));
                           Called (fst mr) (snd mr) (read_args name namespace)
                                  false])).
Proof.
  intros Hb Hd Hl Hi1 Hi2 Hs Hh.
  unfold delete_object, bind at 1 2. unfold lift at 1. rewrite Hd.
  assert (Hc : catch_api
                 (if accepts_body (client h) (fst md) (snd md)
                  then call h md (if negb (truthy namespace) then [name]
                                  else [name; namespace]) true
                  else call h md (if negb (truthy namespace) then [name]
                                  else [name; namespace]) false)
                 (fun exc =>
                    bind (lift (api_message exc))
                      (fun msg => raise (OpenShiftExc
                         (MkOpenShiftException msg (Some (status exc)))))) w =
               (Ok r, MkWorld s1 (log w ++ [Called (fst md) (snd md)
                                    (delete_args name namespace)
                                    (accepts_body c (fst md) (snd md))]))).
  { unfold catch_api. unfold delete_args in Hi1 |- *. fold c.
    destruct (accepts_body c (fst md) (snd md));
      rewrite (call_run md _ _ w Hi1); reflexivity. }
  rewrite Hc. unfold bind, lift.
  rewrite (@math_ceil_half_exact timeout Hb), poll_step.
  destruct (Z_le_gt_dec 0 (ceil_half timeout)); [|lia].
  unfold gone_body, bind.
  rewrite (@get_object_run h name namespace mr
             (MkWorld s1 (log w ++ [Called (fst md) (snd md)
                                      (delete_args name namespace)
                                      (accepts_body c (fst md) (snd md))]))
             _ s2 Hl Hi2).
  rewrite Hs. cbn [Z.eqb negb truthy ret log]. unfold ret.
  rewrite <- app_assoc. reflexivity.
Qed.

(** X12. [create_object] with [wait] and an integer timeout of at most
    [2 ^ 53] in absolute value whose half is not negative: when the first
    poll finds an object whose status has the phase [Active], or has no phase
    at all, that object is returned after one create call and one read,
    without a sleep. *)
Theorem create_object_ready_at_once (namespace k8s_obj : pyval) (timeout : Z)
    (mc mr : string * string) (w : world c) (r obj metadata name st : pyval)
    (s1 s2 : server c) :
  Z.abs timeout <= 2 ^ 53 ->
  lookup_method h "create" namespace = Ok mc ->
  lookup_method h "read" namespace = Ok mr ->
  invoke c (fst mc) (snd mc)
         (if is_none namespace then [k8s_obj] else [namespace; k8s_obj])
         false (srv w) = (Ok r, s1) ->
  get_attr k8s_obj "metadata" = Ok metadata ->
  get_attr metadata "name" = Ok name ->
  invoke c (fst mr) (snd mr) (read_args name namespace) false s1 = (Ok obj, s2) ->
  get_attr obj "status" = Ok st ->
  (get_attr st "phase" = Ok (VStr "Active") \/ has_attr st "phase" = false) ->
  0 <= ceil_half timeout ->
  create_object h namespace k8s_obj true timeout w
  = (Ok obj,
     MkWorld s2 (log w ++ [Called (fst mc) (snd mc)
                                  (if is_none namespace then [k8s_obj]
                                   else [namespace; k8s_obj]) false;
                           Called (fst mr) (snd mr) (read_args name namespace)
                                  false])).
Proof.
  intros Hb Hc Hl Hi1 Hm Hn Hi2 Hst Hph Hh.
  unfold create_object, bind at 1.
  assert (Hf : catch_api
                 (bind (lift (lookup_method h "create" namespace))
                    (fun create_method =>
                       if is_none namespace
                       then call h create_method [k8s_obj] false
                       else call h create_method [namespace; k8s_obj] false))
                 (fun exc =>
                    bind (lift (api_message exc))
                      (fun msg => raise (OpenShiftExc
                         (MkOpenShiftException msg (Some (status exc)))))) w =
               (Ok r, MkWorld s1 (log w ++ [Called (fst mc) (snd mc)
                                    (if is_none namespace then [k8s_obj]
                                     else [namespace; k8s_obj]) false]))).
  { unfold catch_api, bind, lift. rewrite Hc.
    destruct (is_none namespace); rewrite (call_run mc _ _ w Hi1); reflexivity. }
  rewrite Hf. unfold bind at 1. unfold lift at 1.
  rewrite (@math_ceil_half_exact timeout Hb), poll_step.
  destruct (Z_le_gt_dec 0 (ceil_half timeout)); [|lia].
  unfold created_body, bind at 1 2. unfold lift at 1 2. rewrite Hm, Hn.
  unfold ready_body, bind at 1.
  rewrite (@get_object_run h name namespace mr
             (MkWorld s1 (log w ++ [Called (fst mc) (snd mc)
                                      (if is_none namespace then [k8s_obj]
                                       else [namespace; k8s_obj]) false]))
             _ s2 Hl Hi2).
  unfold bind, lift. rewrite Hst. cbn [log].
  assert (Hobj : is_none obj = false) by (destruct obj; try discriminate; reflexivity).
  destruct Hph as [Hph|Hph].
  - unfold has_attr. rewrite Hph. unfold ret. cbn.
    rewrite <- app_assoc. reflexivity.
  - rewrite Hph, Hobj. unfold ret. cbn. rewrite <- app_assoc. reflexivity.
Qed.
End WaitOutcomes.

Lemma delete_object_gone_at_once_witness :
  let h := sample_helper (Raise (ApiExc not_found)) (Ok VNone) in
  let w := start (Raise (ApiExc not_found)) (Ok VNone) in
  delete_object h (VStr "web") (VStr "default") true 60 w
  = (Ok VNone,
     MkWorld (c := client h) tt
       [Called "CoreV1Api" "delete_namespaced_service"
               [VStr "web"; VStr "default"] true;
        Called "CoreV1Api" "read_namespaced_service"
               [VStr "web"; VStr "default"] false]).
Proof.
  intros h w.
  apply (@delete_object_gone_at_once h (VStr "web") (VStr "default") 60
           ("CoreV1Api", "delete_namespaced_service")
           ("CoreV1Api", "read_namespaced_service") w VNone tt tt not_found
           ltac:(discriminate) eq_refl eq_refl eq_refl eq_refl eq_refl).
  discriminate.
Defined.

Lemma create_object_ready_at_once_witness :
  let h := sample_helper (Ok sample_service) (Ok sample_service) in
  let w := start (Ok sample_service) (Ok sample_service) in
  create_object h (VStr "default") sample_service true 60 w
  = (Ok sample_service,
     MkWorld (c := client h) tt
       [Called "CoreV1Api" "create_namespaced_service"
               [VStr "default"; sample_service] false;
        Called "CoreV1Api" "read_namespaced_service"
               [VStr "web"; VStr "default"] false]).
Proof.
  intros h w.
  apply (@create_object_ready_at_once h (VStr "default") sample_service 60
           ("CoreV1Api", "create_namespaced_service")
           ("CoreV1Api", "read_namespaced_service") w sample_service
           sample_service sample_meta (VStr "web")
           (VObj "V1ServiceStatus"
                 [("load_balancer", ("V1LoadBalancerStatus", VNone))])
           tt tt ltac:(discriminate) eq_refl eq_refl eq_refl eq_refl eq_refl
           eq_refl eq_refl).
  - right. reflexivity.
  - discriminate.
Defined.

Section Pending.
Variable h : Helper.
Let c := client h.



End Pending.


(** * Further properties of the sanitizer *)

(** One turn of the loop of the sanitizer, as a function of the entry. *)
Lemma sanitize_entry_cases (ktv : string * (string * pyval)) (out : string * (string * pyval)) :
  out = (let key := fst ktv in
         let value := fst (snd ktv) in
         if String.eqb key "creation_timestamp" then (key, (value, VNone))
         else if String.prefix "dict(" value || String.prefix "list[" value
         then ktv
         else if String.eqb value "str" || String.eqb value "int"
                 || String.eqb value "bool"
         then ktv
         else if negb (is_none (snd (snd ktv)))
         then (key, (value, remove_creation_timestamps (snd (snd ktv))))
         else ktv) ->
  fst out = fst ktv /\ fst (snd out) = fst (snd ktv)
  /\ ((String.eqb (fst ktv) "creation_timestamp" = true /\ snd (snd out) = VNone)
      \/ (String.eqb (fst ktv) "creation_timestamp" = false
          /\ not_followed (fst (snd ktv)) = true /\ out = ktv)
      \/ (String.eqb (fst ktv) "creation_timestamp" = false
          /\ not_followed (fst (snd ktv)) = false
          /\ snd (snd out) = remove_creation_timestamps (snd (snd ktv)))).
Proof.
  destruct ktv as [k [t v]]. cbn [fst snd]. unfold not_followed.
  destruct (String.eqb k "creation_timestamp").
  - intros ->. cbn [fst snd]. split; [reflexivity|]. split; [reflexivity|].
    left. split; reflexivity.
  - destruct (String.prefix "dict(" t || String.prefix "list[" t).
    + intros ->. cbn [fst snd orb]. split; [reflexivity|]. split; [reflexivity|].
      right. left. repeat split.
    + cbn [orb].
      destruct (String.eqb t "str" || String.eqb t "int" || String.eqb t "bool").
      * intros ->. cbn [fst snd]. split; [reflexivity|]. split; [reflexivity|].
        right. left. repeat split.
      * destruct (is_none v) eqn:En; cbn [negb]; intros ->; cbn [fst snd];
          (split; [reflexivity|]); (split; [reflexivity|]);
          right; right; repeat split.
        now destruct v.
Qed.

Lemma remove_creation_timestamps_obj (cls : string)
    (fields : list (string * (string * pyval))) :
  exists fields',
    remove_creation_timestamps (VObj cls fields) = VObj cls fields'
    /\ Forall2 (fun ktv out =>
                  fst out = fst ktv /\ fst (snd out) = fst (snd ktv)
                  /\ ((String.eqb (fst ktv) "creation_timestamp" = true
                       /\ snd (snd out) = VNone)
                      \/ (String.eqb (fst ktv) "creation_timestamp" = false
                          /\ not_followed (fst (snd ktv)) = true /\ out = ktv)
                      \/ (String.eqb (fst ktv) "creation_timestamp" = false
                          /\ not_followed (fst (snd ktv)) = false
                          /\ snd (snd out)
                             = remove_creation_timestamps (snd (snd ktv)))))
               fields fields'.
Proof.
  eexists. split; [reflexivity|].
  induction fields as [|ktv fs IH]; [constructor|].
  cbn [map]. constructor; [|exact IH].
  now apply sanitize_entry_cases.
Qed.

Lemma sanitized_no_timestamps (obj : pyval) :
  no_timestamps (remove_creation_timestamps obj) = true.
Proof.
  induction obj as [| ? | ? | ? | ? ? | ? ? | cls fs IH | ?] using pyval_nested_ind;
    try reflexivity.
  destruct (remove_creation_timestamps_obj cls fs) as [fs' [-> Hrel]].
  cbn [no_timestamps].
  induction Hrel as [|ktv out fs fs' [Hk [Ht Hcase]] Hrel IHrel]; [reflexivity|].
  inversion IH as [|? ? Hv IHfs]; subst.
  cbn [forallb]. rewrite (IHrel IHfs), andb_true_r. rewrite Hk, Ht.
  destruct Hcase as [[Hc Hn]|[[Hc [Hf Ho]]|[Hc [Hf Ho]]]]; rewrite Hc.
  - now rewrite Hn.
  - now rewrite Hf.
  - now rewrite Hf, Ho.
Qed.

(** X14. After the sanitizer no [creation_timestamp] is left, on the object or
    on any object reached through the attributes it follows. *)
Theorem remove_creation_timestamps_clean (obj : pyval) :
  no_timestamps (remove_creation_timestamps obj) = true.
Proof. apply sanitized_no_timestamps. Qed.

(** X15. The sanitizer keeps the class, the attribute names and the declared
    types, and whatever is declared a collection, a mapping or a scalar stays
    as it is, even a collection of objects that carry a timestamp. *)
Theorem remove_creation_timestamps_keeps (cls : string)
    (fields : list (string * (string * pyval))) :
  exists fields',
    remove_creation_timestamps (VObj cls fields) = VObj cls fields'
    /\ swagger_types (VObj cls fields') = swagger_types (VObj cls fields)
    /\ forall k t v, In (k, (t, v)) fields ->
                     k <> "creation_timestamp" -> not_followed t = true ->
                     In (k, (t, v)) fields'.
Proof.
  destruct (remove_creation_timestamps_obj cls fields) as [fs' [Heq Hrel]].
  exists fs'. split; [exact Heq|]. clear Heq. cbn [swagger_types].
  induction Hrel as [|ktv out fs fs' [Hk [Ht Hcase]] Hrel [IH1 IH2]].
  - split; [reflexivity|]. intros ? ? ? [].
  - split.
    + cbn [map]. now rewrite Hk, Ht, IH1.
    + intros k t v [->|Hin] Hne Hnf.
      * cbn [fst snd] in *. left.
        destruct Hcase as [[Hc Hn]|[[Hc [Hf Ho]]|[Hc [Hf Ho]]]].
        -- apply String.eqb_eq in Hc. contradiction.
        -- exact Ho.
        -- congruence.
      * right. now apply IH2.
Qed.

Lemma remove_creation_timestamps_keeps_witness :
  let items := VList [VObj "V1Pod"
                        [("creation_timestamp",
                          ("datetime", VDatetime "2017-05-01T09:30:00"))]] in
  exists fields',
    remove_creation_timestamps
      (VObj "V1PodList" [("items", ("list[V1Pod]", items))])
    = VObj "V1PodList" fields'
    /\ In ("items", ("list[V1Pod]", items)) fields'.
Proof.
  intros items.
  destruct (@remove_creation_timestamps_keeps "V1PodList"
              [("items", ("list[V1Pod]", items))]) as [fs' [H1 [H2 H3]]].
  exists fs'. split; [exact H1|].
  apply H3; [now left|discriminate|reflexivity].
Defined.

(** * Further properties of [patch_object] *)

Lemma assoc_update_field_same (k : string) (x : pyval)
    (fs : list (string * (string * pyval))) (t : string) (v : pyval) :
  assoc k fs = Some (t, v) -> assoc k (update_field k x fs) = Some (t, x).
Proof.
  induction fs as [|[k' [t' v']] fs IH]; simpl; [discriminate|].
  destruct (String.eqb k k') eqn:E; simpl; rewrite E.
  - intros H. now inversion H.
  - exact IH.
Qed.

Lemma assoc_update_field_other (k k' : string) (x : pyval)
    (fs : list (string * (string * pyval))) :
  String.eqb k' k = false -> assoc k' (update_field k x fs) = assoc k' fs.
Proof.
  intros Hne. induction fs as [|[k1 [t1 v1]] fs IH]; simpl; [reflexivity|].
  destruct (String.eqb k k1) eqn:E; simpl.
  - apply String.eqb_eq in E. subst k1. now rewrite Hne.
  - destruct (String.eqb k' k1); [reflexivity|exact IH].
Qed.

Lemma update_field_types (k : string) (x : pyval) (cls : string)
    (fs : list (string * (string * pyval))) :
  swagger_types (VObj cls (update_field k x fs)) = swagger_types (VObj cls fs).
Proof.
  cbn [swagger_types]. induction fs as [|[k1 [t1 v1]] fs IH]; [reflexivity|].
  simpl. destruct (String.eqb k k1); simpl; [reflexivity|now rewrite IH].
Qed.

(** An attribute other than [creation_timestamp], after the sanitizer: the
    value it had, or that value sanitized. *)
Lemma get_attr_sanitized (obj : pyval) (k : string) (v : pyval) :
  String.eqb k "creation_timestamp" = false ->
  get_attr obj k = Ok v ->
  get_attr (remove_creation_timestamps obj) k = Ok v
  \/ get_attr (remove_creation_timestamps obj) k
     = Ok (remove_creation_timestamps v).
Proof.
  intros Hk. destruct obj as [| | | | | |cls fs|]; try discriminate.
  destruct (remove_creation_timestamps_obj cls fs) as [fs' [-> Hrel]].
  unfold get_attr.
  induction Hrel as [|[k1 [t1 v1]] [k2 [t2 v2]] fs fs' [Hk' [Ht Hcase]] Hrel IH];
    [discriminate|].
  cbn [fst snd] in *. subst k2 t2. cbn [assoc].
  destruct (String.eqb k k1) eqn:E; [|exact IH].
  apply String.eqb_eq in E. subst k1. cbn [snd]. intros H. inversion H; subst v1.
  destruct Hcase as [[Hc _]|[[_ [_ Ho]]|[_ [_ Ho]]]].
  - congruence.
  - inversion Ho. now left.
  - right. now rewrite Ho.
Qed.

Lemma sanitized_types (obj : pyval) :
  swagger_types (remove_creation_timestamps obj) = swagger_types obj.
Proof.
  destruct obj as [| | | | | |cls fs|]; try reflexivity.
  destruct (remove_creation_timestamps_obj cls fs) as [fs' [-> Hrel]].
  cbn [swagger_types].
  induction Hrel as [|ktv out fs fs' [Hk [Ht _]] Hrel IH]; [reflexivity|].
  cbn [map]. now rewrite Hk, Ht, IH.
Qed.

Section PatchFacts.
Variable h : Helper.
Let c := client h.

Lemma prepare_patch_shape (k8s_obj payload : pyval) :
  prepare_patch h k8s_obj = Ok payload ->
  exists st cls fs cm fm,
    new_status h = Ok st
    /\ k8s_obj = VObj cls fs
    /\ get_attr k8s_obj "metadata" = Ok (VObj cm fm)
    /\ payload =
       remove_creation_timestamps
         (VObj cls (update_field "metadata"
                      (VObj cm (update_field "resource_version" VNone fm))
                      (update_field "status" st fs))).
Proof.
  unfold prepare_patch. intros Hp.
  destruct (new_status h) as [st|]; [|discriminate].
  destruct k8s_obj as [| | | | | |cls fs|]; try discriminate Hp.
  assert (Hm : get_attr (VObj cls (update_field "status" st fs)) "metadata"
               = get_attr (VObj cls fs) "metadata").
  { unfold get_attr. now rewrite assoc_update_field_other. }
  unfold set_attr at 1 in Hp. rewrite Hm in Hp.
  destruct (get_attr (VObj cls fs) "metadata") as [[| | | | | |cm fm|]|];
    try discriminate Hp.
  exists st, cls, fs, cm, fm. repeat split.
  injection Hp as <-. reflexivity.
Qed.

(** X16. What [patch_object] sends, when the object can be prepared and the
    method is found.  The debug message is built first, from the mapping
    form of the prepared object rendered as JSON: when that raises (an
    instance or a [datetime] is left in it), [patch_object] raises the same
    and calls nothing; when it goes through, the first call is the patch
    call, with the prepared object.  The prepared object is the one given
    with its status reset, the resource version of its metadata cleared and
    no creation timestamp left; class, attribute names and declared types
    are those of the object it was given. *)
Theorem patch_object_payload (name namespace k8s_obj payload : pyval)
    (wait : bool) (timeout : Z) (m : string * string) (w : world c) :
  prepare_patch h k8s_obj = Ok payload ->
  lookup_method h "patch" namespace = Ok m ->
  (forall e, debug_dump payload = Raise e ->
     patch_object h name namespace k8s_obj wait timeout w = (Raise e, w))
  /\ (debug_dump payload = Ok tt ->
      exists evs,
        log (snd (patch_object h name namespace k8s_obj wait timeout w))
        = (log w ++ Called (fst m) (snd m)
                           (if truthy namespace then [name; namespace; payload]
                            else [name; payload]) false :: evs)%list)
  /\ no_timestamps payload = true
  /\ type_name payload = type_name k8s_obj
  /\ swagger_types payload = swagger_types k8s_obj
  /\ (forall metadata rv,
        get_attr k8s_obj "metadata" = Ok metadata ->
        get_attr metadata "resource_version" = Ok rv ->
        (md <- get_attr payload "metadata" ;; get_attr md "resource_version")
        = Ok VNone).
Proof.
  intros Hp Hl. split; [|split; [|split; [|split; [|split]]]].
  - intros e Hd. unfold patch_object, bind, lift. now rewrite Hp, Hd.
  - intros Hd. unfold patch_object. unfold bind at 1. unfold lift at 1.
    rewrite Hp. unfold bind at 1. unfold lift at 1. rewrite Hd.
    unfold bind at 1.
    match goal with
    | |- context [catch_api ?f ?k w] =>
        assert (Hq : log (snd (catch_api f k w))
                     = (log w ++ [Called (fst m) (snd m)
                                    (if truthy namespace
                                     then [name; namespace; payload]
                                     else [name; payload]) false])%list);
          [|destruct (catch_api f k w) as [[r|e] w1]]
    end.
    + rewrite <- (@catch_call_log h m _ false
                    (fun exc msg => OpenShiftExc
                       (MkOpenShiftException (VStr (exc_str exc)) None)) w).
      unfold catch_api, bind, lift. rewrite Hl.
      now destruct (truthy namespace).
    + cbn [snd] in Hq. destruct wait.
      * unfold bind, lift.
        destruct (math_ceil_half timeout) as [half|e]; [|exists []; exact Hq].
        destruct (@poll_within h pyval (ready_body h name namespace)
                    half r w1) as [evs [Hlog _]].
        { intros st w'. rewrite ready_body_log. apply get_object_log. }
        exists evs. rewrite Hlog, Hq. rewrite <- app_assoc. reflexivity.
      * exists []. exact Hq.
    + exists []. exact Hq.
  - destruct (prepare_patch_shape _ Hp) as [st [cls [fs [cm [fm [_ [_ [_ ->]]]]]]]].
    apply sanitized_no_timestamps.
  - destruct (prepare_patch_shape _ Hp) as [st [cls [fs [cm [fm [_ [-> [_ ->]]]]]]]].
    reflexivity.
  - destruct (prepare_patch_shape _ Hp) as [st [cls [fs [cm [fm [_ [-> [_ ->]]]]]]]].
    rewrite sanitized_types. now rewrite !update_field_types.
  - intros metadata rv Hm Hrv.
    destruct (prepare_patch_shape _ Hp) as [st [cls [fs [cm [fm [_ [-> [Hm' ->]]]]]]]].
    rewrite Hm in Hm'. injection Hm' as ->.
    set (md' := VObj cm (update_field "resource_version" VNone fm)).
    assert (Hrv' : get_attr md' "resource_version" = Ok VNone).
    { unfold md', get_attr in *.
      destruct (assoc "resource_version" fm) as [[t v]|] eqn:Ea; [|discriminate].
      now rewrite (assoc_update_field_same _ _ _ Ea). }
    assert (Hmd : get_attr (VObj cls (update_field "metadata" md'
                                        (update_field "status" st fs)))
                           "metadata" = Ok md').
    { unfold get_attr in Hm |- *.
      rewrite <- (@assoc_update_field_other "status" "metadata" st fs eq_refl)
        in Hm.
      destruct (assoc "metadata" (update_field "status" st fs)) as [[t v]|] eqn:Ea;
        [|discriminate].
      now rewrite (assoc_update_field_same _ _ _ Ea). }
    destruct (get_attr_sanitized _ "metadata" eq_refl Hmd) as [-> | ->].
    + exact Hrv'.
    + destruct (get_attr_sanitized _ "resource_version" eq_refl Hrv') as [-> | ->];
        reflexivity.
Qed.

End PatchFacts.

Lemma patch_object_payload_witness :
  let h := sample_helper (Ok sample_service) (Ok sample_service) in
  let w := start (Ok sample_service) (Ok sample_service) in
  exists payload,
    prepare_patch h sample_service = Ok payload
    /\ (exists evs,
          log (snd (patch_object h (VStr "web") (VStr "default") sample_service
                                 false 60 w))
          = Called "CoreV1Api" "patch_namespaced_service"
                   [VStr "web"; VStr "default"; payload] false :: evs)
    /\ no_timestamps payload = true
    /\ (md <- get_attr payload "metadata" ;; get_attr md "resource_version")
       = Ok VNone.
Proof.
  intros h w. eexists. split; [reflexivity|].
  destruct (@patch_object_payload h (VStr "web") (VStr "default") sample_service
              _ false 60 ("CoreV1Api", "patch_namespaced_service") w
              eq_refl eq_refl) as [_ [H0 [H1 [_ [_ H2]]]]].
  split; [exact (H0 eq_refl)|]. split; [exact H1|].
  apply (H2 sample_meta (VStr "4217")); reflexivity.
Defined.


(** A [datetime] that the sanitizer leaves, here the deletion timestamp,
    stops [patch_object] at the debug message, before any call. *)
Example patch_object_leftover_datetime :
  let meta :=
    VObj "V1ObjectMeta"
      [("deletion_timestamp", ("datetime", VDatetime "2017-05-02T08:00:00"));
       ("name", ("str", VStr "web"));
       ("resource_version", ("str", VStr "4217"))] in
  let obj := VObj "V1Service" [("metadata", ("V1ObjectMeta", meta));
                               ("status", ("V1ServiceStatus", VNone))] in
  let h := sample_helper (Ok sample_service) (Ok sample_service) in
  let w := start (Ok sample_service) (Ok sample_service) in
  patch_object h (VStr "web") (VStr "default") obj false 60 w
  = (Raise TypeError, w).
Proof. reflexivity. Qed.

(** * Further properties of the names *)

Lemma sub_from_length (s : string) :
  forall skip, (String.length (sub_from skip s) <= String.length s)%nat.
Proof.
  induction s as [|ch s IH]; intros skip; [destruct skip; simpl; lia|].
  cbn [sub_from]. destruct skip as [|n].
  - destruct (VERSION_RX_match (String ch s)) as [[|n]|].
    + simpl. specialize (IH 0%nat). lia.
    + simpl. specialize (IH n). lia.
    + simpl. specialize (IH 0%nat). lia.
  - simpl. specialize (IH n). lia.
Qed.

Lemma sub_from_shrinks (s : string) :
  VERSION_RX_search s = true ->
  (String.length (sub_from 0 s) < String.length s)%nat.
Proof.
  induction s as [|ch s IH]; [discriminate|].
  intros H. cbn [VERSION_RX_search] in H. cbn [sub_from].
  destruct (VERSION_RX_match (String ch s)) as [n|] eqn:Hm.
  - pose proof (VERSION_RX_match_length _ Hm) as Hn.
    destruct n as [|n]; [lia|].
    pose proof (sub_from_length s n). simpl. lia.
  - simpl. specialize (IH H). lia.
Qed.

(** X18. [get_base_model_name] never makes a name longer, and it returns the
    name as it is exactly when the name holds no version token. *)
Theorem get_base_model_name_fixed (name : string) :
  (String.length (get_base_model_name name) <= String.length name)%nat
  /\ (get_base_model_name name = name <-> VERSION_RX_search name = false).
Proof.
  unfold get_base_model_name, VERSION_RX_sub. split; [apply sub_from_length|].
  split.
  - intros H. destruct (VERSION_RX_search name) eqn:Hs; [|reflexivity].
    pose proof (sub_from_shrinks name Hs) as Hl. rewrite H in Hl. lia.
  - apply sub_from_no_token.
Qed.

Lemma sub_front (name : string) (n : nat) :
  VERSION_RX_match name = Some n ->
  VERSION_RX_search (string_drop n name) = false ->
  sub_from 0 name = string_drop n name.
Proof.
  intros Hm Hrest. pose proof (VERSION_RX_match_length _ Hm) as Hn.
  destruct name as [|ch s]; [discriminate|].
  destruct n as [|n]; [lia|].
  cbn [sub_from]. rewrite Hm. cbn [string_drop] in *.
  rewrite sub_from_skip. now apply sub_from_no_token.
Qed.

Lemma prefix_app (p s t : string) :
  String.prefix p s = true -> String.prefix p (s ++ t) = true.
Proof.
  revert s. induction p as [|a p IH]; intros s H; [now destruct (s ++ t)|].
  destruct s as [|b s]; [discriminate|]. simpl in *.
  destruct (ascii_dec a b); [now apply IH|discriminate].
Qed.

Lemma digit_at_app (n : nat) (s t : string) :
  digit_at n s = true -> digit_at n (s ++ t) = true.
Proof.
  unfold digit_at. revert n. induction s as [|b s IH]; intros n H.
  - destruct n; discriminate.
  - destruct n as [|n]; simpl in *; [exact H|now apply IH].
Qed.

Lemma string_drop_app (s t : string) :
  string_drop (String.length s) (s ++ t) = t.
Proof. induction s as [|a s IH]; [now destruct t|exact IH]. Qed.

Lemma upper_not_ab (ch : ascii) :
  upper ch <> "a"%char /\ upper ch <> "b"%char.
Proof.
  destruct ch as [[] [] [] [] [] [] [] []]; vm_compute; split; discriminate.
Qed.

Lemma prefix_first_differs (a ch : ascii) (p s : string) :
  a <> ch -> String.prefix (String a p) (String ch s) = false.
Proof.
  intros H. cbn [String.prefix]. destruct (ascii_dec a ch); [contradiction|].
  reflexivity.
Qed.

Lemma prefix_beta_not_alpha (s : string) :
  String.prefix "beta" s = true -> String.prefix "alpha" s = false.
Proof.
  destruct s as [|r0 s]; [discriminate|]. cbn [String.prefix].
  destruct (ascii_dec "b" r0) as [<-|]; [|discriminate]. intros _.
  destruct (ascii_dec "a" "b"); [discriminate|reflexivity].
Qed.

(** A version token, followed by a name that starts with no lower-case
    letter, is matched as a whole and no further. *)
Lemma VERSION_RX_match_app (tok name : string) :
  VERSION_RX_match tok = Some (String.length tok) ->
  (forall ch rest, name = String ch rest -> ch <> "a"%char /\ ch <> "b"%char) ->
  VERSION_RX_match (tok ++ name) = Some (String.length tok).
Proof.
  intros Hm Hname. unfold VERSION_RX_match in *.
  destruct tok as [|v [|d rest]]; try discriminate.
  - destruct v as [[] [] [] [] [] [] [] []]; discriminate.
  - cbn [append].
    destruct v as [[] [] [] [] [] [] [] []]; try discriminate.
    destruct (is_digit d); [|discriminate].
    destruct (String.prefix "alpha" rest && digit_at 5 rest) eqn:Ea.
    + apply andb_true_iff in Ea. destruct Ea as [E1 E2].
      now rewrite (prefix_app _ _ name E1), (digit_at_app _ _ name E2).
    + destruct (String.prefix "beta" rest && digit_at 4 rest) eqn:Eb.
      * apply andb_true_iff in Eb. destruct Eb as [E1 E2].
        rewrite (prefix_beta_not_alpha _ (prefix_app _ _ name E1)).
        rewrite (prefix_app _ _ name E1), (digit_at_app _ _ name E2).
        exact Hm.
      * injection Hm as Hlen. cbn [String.length] in Hlen.
        destruct rest as [|r0 rest]; [|cbn [String.length] in Hlen; lia].
        cbn [append String.length].
        destruct name as [|ch name]; [reflexivity|].
        destruct (Hname ch name eq_refl) as [Ha Hb].
        rewrite !prefix_first_differs by congruence. reflexivity.
Qed.

(** X19. [get_model] then [get_base_model_name], as [__init__] composes them:
    for an API version that is a version token once capitalized, and a kind
    whose name holds no token, the base name is the capitalized camel-case
    kind. *)
Theorem get_model_base_name (models : list string)
    (snake_case_to_camel : string -> string) (api_version kind model : string) :
  get_model models snake_case_to_camel api_version kind = Ok model ->
  VERSION_RX_match (capitalize api_version)
  = Some (String.length (capitalize api_version)) ->
  VERSION_RX_search
    (capitalize (string_head (snake_case_to_camel kind))
     ++ string_drop 1 (snake_case_to_camel kind)) = false ->
  In model models
  /\ get_base_model_name model
     = capitalize (string_head (snake_case_to_camel kind))
       ++ string_drop 1 (snake_case_to_camel kind).
Proof.
  intros Hg Hm Hs. unfold get_model in Hg.
  destruct (existsb _ models) eqn:He; [|discriminate].
  injection Hg as <-. split.
  - apply existsb_exists in He. destruct He as [x [Hin Hx]].
    apply String.eqb_eq in Hx. now subst x.
  - unfold model_name_of, get_base_model_name, VERSION_RX_sub.
    set (tok := capitalize api_version) in *.
    set (name := capitalize (string_head (snake_case_to_camel kind))
                 ++ string_drop 1 (snake_case_to_camel kind)) in *.
    rewrite (@sub_front (tok ++ name) (String.length tok)).
    + apply string_drop_app.
    + apply VERSION_RX_match_app; [exact Hm|].
      intros ch rest Hn. unfold name in Hn.
      destruct (snake_case_to_camel kind) as [|c0 s0]; [discriminate|].
      simpl in Hn. injection Hn as <- _. apply upper_not_ab.
    + now rewrite string_drop_app.
Qed.

Lemma get_model_base_name_witness :
  let camel := fun s : string => if String.eqb s "service" then "service" else s in
  In "V1beta1Service" ["V1Service"; "V1beta1Service"]
  /\ get_base_model_name "V1beta1Service" = "Service".
Proof.
  intros camel.
  apply (@get_model_base_name ["V1Service"; "V1beta1Service"] camel
           "v1Beta1" "service" "V1beta1Service"); reflexivity.
Defined.

(** * Properties of the introspection *)

Lemma properties_from_model_obj_unfold (models : list string)
    (class_props : list (string * py_property)) (types : list (string * string)) :
  properties_from_model_obj models class_props types =
  fold_left (props_step models types)
            (map (fun xp => (fst xp, false)) class_props) (Ok []).
Proof. reflexivity. Qed.

Lemma props_fold_raise (models : list string) (types : list (string * string))
    (l : list (string * bool)) (e : exn) :
  fold_left (props_step models types) l (Raise e) = Raise e.
Proof. induction l as [|p l IH]; [reflexivity|exact IH]. Qed.

Lemma assoc_dict_set {A : Type} (k name : string) (v : A)
    (d : list (string * A)) :
  assoc name (dict_set k v d) = if String.eqb name k then Some v else assoc name d.
Proof.
  induction d as [|[k' v'] d IH]; simpl.
  - reflexivity.
  - destruct (String.eqb k k') eqn:E; simpl.
    + apply String.eqb_eq in E. subst k'. now destruct (String.eqb name k).
    + destruct (String.eqb name k') eqn:E'.
      * apply String.eqb_eq in E'. subst k'.
        rewrite String.eqb_sym in E. now rewrite E.
      * exact IH.
Qed.

Lemma assoc_in_keys {A : Type} (name : string) (d : list (string * A)) :
  In name (map fst d) <-> exists v, assoc name d = Some v.
Proof.
  induction d as [|[k v] d IH]; simpl.
  - split; [intros []|intros [v H]; discriminate].
  - destruct (String.eqb name k) eqn:E.
    + apply String.eqb_eq in E. subst k. split; eauto.
    + apply String.eqb_neq in E. rewrite <- IH. split.
      * intros [H|H]; [congruence|exact H].
      * auto.
Qed.

Lemma dict_set_keys {A : Type} (k name : string) (v : A)
    (d : list (string * A)) :
  In name (map fst (dict_set k v d)) <-> name = k \/ In name (map fst d).
Proof.
  induction d as [|[k' v'] d IH]; simpl.
  - split; [intros [<-|[]]; auto | intros [->|[]]; auto].
  - destruct (String.eqb k k') eqn:E; simpl.
    + apply String.eqb_eq in E. subst k'. split; [intros [<-|H]|intros [->|H]]; auto.
    + rewrite IH. split; [intros [H|[H|H]]|intros [H|[H|H]]]; auto.
Qed.

(** The loop of the introspection, from any [result] so far. *)
Lemma props_fold_ok (models : list string) (types : list (string * string))
    (l : list (string * bool)) :
  forall acc r,
    fold_left (props_step models types) l (Ok acc) = Ok r ->
    Forall (fun p => describable models types (fst p)) l
    /\ (forall name, In name (map fst r)
                     <-> In name (map fst acc) \/ In name (map fst l))
    /\ (forall name cls imm,
          assoc name r = Some (cls, imm) ->
          assoc name acc = Some (cls, imm)
          \/ (exists t, assoc name types = Some t
                        /\ class_of_kind models t = Ok cls
                        /\ In (name, imm) l)).
Proof.
  induction l as [|[x imm0] l IH]; intros acc r H.
  - injection H as <-. split; [constructor|]. split.
    + intros name. simpl. tauto.
    + auto.
  - cbn [fold_left] in H. unfold props_step at 2 in H. cbn [fst snd] in H.
    destruct (assoc x types) as [t|] eqn:Et;
      [|rewrite props_fold_raise in H; discriminate].
    destruct (class_of_kind models t) as [cls0|e] eqn:Ec;
      [|rewrite props_fold_raise in H; discriminate].
    destruct (IH _ _ H) as [Hall [Hkeys Hval]]. split; [|split].
    + constructor; [|exact Hall]. exists t, cls0. auto.
    + intros name. rewrite Hkeys, dict_set_keys. cbn [map fst In].
      split; [intros [[->|Hk]|Hk]|intros [Hk|[<-|Hk]]]; auto.
    + intros name cls imm Ha.
      destruct (Hval _ _ _ Ha) as [Hacc|[t' [Ht' [Hc' Hin]]]].
      * rewrite assoc_dict_set in Hacc.
        destruct (String.eqb name x) eqn:E; [|now left].
        apply String.eqb_eq in E. subst x. injection Hacc as <- <-.
        right. exists t. repeat split; auto. now left.
      * right. exists t'. repeat split; auto. now right.
Qed.

Lemma props_fold_describable (models : list string)
    (types : list (string * string)) (l : list (string * bool)) :
  Forall (fun p => describable models types (fst p)) l ->
  forall acc, exists r, fold_left (props_step models types) l (Ok acc) = Ok r.
Proof.
  induction 1 as [|[x imm0] l [t [cls [Ht Hc]]] Hall IH]; intros acc.
  - exists acc. reflexivity.
  - cbn [fold_left]. unfold props_step at 2. cbn [fst snd] in *.
    rewrite Ht, Hc. apply IH.
Qed.

Lemma props_fold_errors (models : list string) (types : list (string * string))
    (l : list (string * bool)) :
  forall acc e,
    fold_left (props_step models types) l (Ok acc) = Raise e ->
    e = KeyError \/ e = AttributeError.
Proof.
  induction l as [|[x imm0] l IH]; intros acc e H; [discriminate|].
  cbn [fold_left] in H. unfold props_step at 2 in H. cbn [fst snd] in H.
  destruct (assoc x types) as [t|];
    [|rewrite props_fold_raise in H; injection H as <-; now left].
  destruct (class_of_kind models t) as [cls0|e'] eqn:Ec.
  - exact (IH _ _ H).
  - rewrite props_fold_raise in H. injection H as <-. right.
    unfold class_of_kind in Ec.
    repeat match type of Ec with
           | (if ?b then _ else _) = _ => destruct b; try discriminate
           end.
    now injection Ec as <-.
Qed.

(** X20. Every property that [properties_from_model_obj] describes is marked as
    not immutable, whether or not it was given a setter: the test reads the
    attribute [setter] of the property object, which every property has. *)
Theorem properties_all_mutable (models : list string)
    (class_props : list (string * py_property)) (types : list (string * string))
    (r : list (string * (prop_class * bool))) (name : string)
    (cls : prop_class) (imm : bool) :
  properties_from_model_obj models class_props types = Ok r ->
  assoc name r = Some (cls, imm) ->
  imm = false.
Proof.
  rewrite properties_from_model_obj_unfold. intros H Ha.
  destruct (props_fold_ok _ _ _ _ H) as [_ [_ Hval]].
  destruct (Hval _ _ _ Ha) as [Hnil|[t [_ [_ Hin]]]]; [discriminate|].
  apply in_map_iff in Hin. destruct Hin as [xp [Hxp _]]. congruence.
Qed.

Lemma properties_all_mutable_witness :
  let props := [("kind", MkProperty true); ("status", MkProperty false)] in
  let types := [("kind", "str"); ("status", "V1ServiceStatus")] in
  let r := [("kind", (ClassStr, false));
            ("status", (ClassModel "V1ServiceStatus", false))] in
  properties_from_model_obj ["V1ServiceStatus"] props types = Ok r
  /\ exists imm, assoc "status" r = Some (ClassModel "V1ServiceStatus", imm)
                 /\ imm = false.
Proof.
  intros props types r. split; [reflexivity|].
  exists false. split; [reflexivity|].
  apply (@properties_all_mutable ["V1ServiceStatus"] props types r "status"
           (ClassModel "V1ServiceStatus") false eq_refl eq_refl).
Defined.

(** X21. [properties_from_model_obj] succeeds exactly when every property is
    declared in [swagger_types] with a type that is a scalar, a list, a
    dict or the name of a model class; then it describes the properties and
    nothing else, each with the class of its declared type.  When it fails
    it raises [KeyError] (a property that is not declared) or
    [AttributeError] (a type such as [datetime] that names no model). *)
Theorem properties_from_model_obj_spec (models : list string)
    (class_props : list (string * py_property)) (types : list (string * string)) :
  ((exists r, properties_from_model_obj models class_props types = Ok r)
   <-> Forall (fun xp => describable models types (fst xp)) class_props)
  /\ (forall r, properties_from_model_obj models class_props types = Ok r ->
        (forall name, In name (map fst r) <-> In name (map fst class_props))
        /\ (forall name cls imm, assoc name r = Some (cls, imm) ->
              exists t, assoc name types = Some t
                        /\ class_of_kind models t = Ok cls))
  /\ (forall e, properties_from_model_obj models class_props types = Raise e ->
        e = KeyError \/ e = AttributeError).
Proof.
  rewrite properties_from_model_obj_unfold. split; [split|split].
  - intros [r H]. destruct (props_fold_ok _ _ _ _ H) as [Hall _].
    rewrite Forall_map in Hall. exact Hall.
  - intros Hall. apply props_fold_describable. rewrite Forall_map. exact Hall.
  - intros r H. destruct (props_fold_ok _ _ _ _ H) as [_ [Hkeys Hval]]. split.
    + intros name. rewrite Hkeys, map_map. cbn [map fst In]. tauto.
    + intros name cls imm Ha.
      destruct (Hval _ _ _ Ha) as [Hnil|[t [Ht [Hc _]]]]; [discriminate|eauto].
  - intros e H. exact (props_fold_errors _ _ _ _ H).
Qed.

Lemma properties_from_model_obj_spec_witness :
  ~ exists r,
      properties_from_model_obj ["V1ObjectMeta"]
        [("creation_timestamp", MkProperty true)]
        [("creation_timestamp", "datetime")] = Ok r.
Proof.
  intros Hr.
  pose proof (proj1 (proj1 (@properties_from_model_obj_spec ["V1ObjectMeta"]
                              [("creation_timestamp", MkProperty true)]
                              [("creation_timestamp", "datetime")])) Hr) as Hall.
  inversion Hall as [|xp l [t [cls [Ht Hc]]] Hrest]; subst.
  cbn in Ht. injection Ht as <-. discriminate Hc.
Defined.

(** * Properties of the logging switch *)

(** X22. [enable_debug] with [reset_logfile], its default: the statement that
    should reopen the log file looks for the handlers under [loggers], where
    the module's [LOGGING] has none, so it raises [KeyError] and nothing is
    configured. *)
Theorem enable_debug_reset_fails (logging : pyval)
    (loggers : list (string * pyval)) :
  py_getitem logging "loggers" = Ok (VDict loggers) ->
  assoc "handlers" loggers = None ->
  enable_debug true logging = Raise KeyError.
Proof.
  intros Hl Hh. unfold enable_debug. rewrite Hl.
  unfold py_getitem at 1. now rewrite Hh.
Qed.

Lemma enable_debug_reset_fails_witness :
  enable_debug true LOGGING = Raise KeyError.
Proof.
  apply (@enable_debug_reset_fails LOGGING
           [("openshift.helper",
             VDict [("handlers", VList [VStr "file"]);
                    ("level", VStr "INFO");
                    ("propagate", VBool false)])]); reflexivity.
Defined.

(** X23. [enable_debug] without [reset_logfile] sets the level of the module's
    logger to [DEBUG] and leaves every other top-level entry of [LOGGING] as
    it is. *)
Theorem enable_debug_sets_level (logging : pyval)
    (loggers logger : list (string * pyval)) :
  py_getitem logging "loggers" = Ok (VDict loggers) ->
  assoc "openshift.helper" loggers = Some (VDict logger) ->
  exists logging',
    enable_debug false logging = Ok logging'
    /\ (ls <- py_getitem logging' "loggers" ;;
        lg <- py_getitem ls "openshift.helper" ;;
        py_getitem lg "level") = Ok (VStr "DEBUG")
    /\ forall key, key <> "loggers" ->
                   py_getitem logging' key = py_getitem logging key.
Proof.
  intros Hl Hg. unfold enable_debug. rewrite Hl.
  unfold py_getitem at 1. rewrite Hg. cbn [py_setitem].
  destruct logging as [| | | | | d | |]; try discriminate Hl.
  cbn [py_setitem]. eexists. split; [reflexivity|]. split.
  - unfold py_getitem.
    rewrite assoc_dict_set, String.eqb_refl.
    rewrite assoc_dict_set, String.eqb_refl.
    rewrite assoc_dict_set, String.eqb_refl. reflexivity.
  - intros key Hk. unfold py_getitem. rewrite assoc_dict_set.
    apply String.eqb_neq in Hk. now rewrite Hk.
Qed.

Lemma enable_debug_sets_level_witness :
  exists logging',
    enable_debug false LOGGING = Ok logging'
    /\ (ls <- py_getitem logging' "loggers" ;;
        lg <- py_getitem ls "openshift.helper" ;;
        py_getitem lg "level") = Ok (VStr "DEBUG")
    /\ forall key, key <> "loggers" ->
                   py_getitem logging' key = py_getitem LOGGING key.
Proof.
  apply (@enable_debug_sets_level LOGGING
           [("openshift.helper",
             VDict [("handlers", VList [VStr "file"]);
                    ("level", VStr "INFO");
                    ("propagate", VBool false)])]
           [("handlers", VList [VStr "file"]);
            ("level", VStr "INFO");
            ("propagate", VBool false)]); reflexivity.
Defined.


(** * Sample runs of the error paths *)

Lemma create_object_error_witness :
  let h := sample_helper (Ok sample_service) (Raise (ApiExc conflict)) in
  let w := start (Ok sample_service) (Raise (ApiExc conflict)) in
  fst (create_object h (VStr "default") sample_service true 60 w) =
  Raise (OpenShiftExc (MkOpenShiftException
                         (VStr "the object has been modified") (Some 409))).
Proof.
  intros h w.
  apply (@create_object_error h (VStr "default") sample_service true 60
           ("CoreV1Api", "create_namespaced_service") w conflict
           (VStr "the object has been modified") tt eq_refl eq_refl eq_refl).
Defined.

Lemma delete_object_error_witness :
  let h := sample_helper (Ok sample_service) (Raise (ApiExc conflict)) in
  let w := start (Ok sample_service) (Raise (ApiExc conflict)) in
  delete_object h (VStr "web") (VStr "default") true 60 w =
  (Raise (OpenShiftExc (MkOpenShiftException
                          (VStr "the object has been modified") (Some 409))),
   MkWorld (c := client h) tt
     [Called "CoreV1Api" "delete_namespaced_service"
             [VStr "web"; VStr "default"] true]).
Proof.
  intros h w.
  apply (@delete_object_error h (VStr "web") (VStr "default") true 60
           ("CoreV1Api", "delete_namespaced_service") w conflict
           (VStr "the object has been modified") tt eq_refl eq_refl eq_refl).
Defined.
